(** * AcuMate ERP copilot: approval state machine and feedback learning

    A shallow embedding of
    - [erp_copilot/managers/pending_action_manager.py] (class
      [PendingActionManager]),
    - [erp_copilot/services/learning_database.py] (classes [LearningEntry]
      and [LearningDatabase]),
    - [erp_copilot/managers/data_processor.py] (class
      [HistoricalDataProcessor]),
    - [get_suggestion] of [erp_copilot/core/copilot_service.py] and
      [plan_historical_get] of [erp_copilot/api/routes.py],
    followed by the properties of the components.

    Conventions of the embedding.
    - Python dictionaries that the code uses as maps keyed by strings
      ([pending_actions], [patterns]) are [gmap string _].
    - Structured data of type [Any] (what [json.loads] produces) is the
      inductive type [value]; JSON floats are not part of it.
    - [datetime] values are integers, in microseconds; every call of
      [datetime.now()], [time.time()] and [uuid.uuid4()] of the source
      is an explicit argument of the embedded function, in the order of
      the calls.
    - Python [float]s are the rationals they denote ([Qc]); the literals
      0.5, 0.3, 0.2 and 0.9 are 1/2, 3/10, 1/5 and 9/10, and [a / b] on
      integers is the exact quotient.
    - An exception is a value of [res]; a function with a
      [try ... except Exception] block returns what its handler returns.
    - The records of the history store have the keys [handle_action]
      gives them; the answer of the language model is an argument of
      [get_suggestion]. *)

From Stdlib Require Import Ascii QArith Qcanon.
From stdpp Require Import base numbers option list strings gmap fin_maps pretty sorting.

Set Warnings "-register-all".
Local Open Scope string_scope.
Local Open Scope Z_scope.

(** ** Python values and the builtins the code uses *)
Module Py.

Inductive value : Type :=
  | VNone
  | VBool (b : bool)
  | VInt (n : Z)
  | VStr (s : string)
  | VList (l : list value)
  | VDict (d : list (string * value)).

(** [Dict[str, Any]]: keys in insertion order, each key once. *)
Abbreviation dict := (list (string * value)).

Inductive exn : Type :=
  | AttributeError | KeyError | TypeError | ValueError | ZeroDivisionError.

Inductive res (A : Type) : Type :=
  | Ok (a : A)
  | Raise (e : exn).
Global Arguments Ok {A} a.
Global Arguments Raise {A} e.

Global Instance res_ret : MRet res := λ A a, Ok a.
Global Instance res_bind : MBind res := λ A B f m,
  match m with Ok a => f a | Raise e => Raise e end.

Definition is_ok {A} (r : res A) : bool :=
  match r with Ok _ => true | Raise _ => false end.

(** [d.get(k)] on a dictionary: the first (only) binding of [k]. *)
Fixpoint lookup_key (k : string) (d : dict) : option value :=
  match d with
  | [] => None
  | (k', v) :: d' => if String.eqb k k' then Some v else lookup_key k d'
  end.

(** [d.get(k, default)] *)
Definition dict_get (d : dict) (k : string) (default : value) : value :=
  match lookup_key k d with Some v => v | None => default end.

(** [v.get(k, default)] on an arbitrary object: only [dict] has [get]. *)
Definition get (v : value) (k : string) (default : value) : res value :=
  match v with
  | VDict d => Ok (dict_get d k default)
  | _ => Raise AttributeError
  end.

(** [v[k]] with a string key. *)
Definition getitem (v : value) (k : string) : res value :=
  match v with
  | VDict d => match lookup_key k d with Some x => Ok x | None => Raise KeyError end
  | _ => Raise TypeError
  end.

(** [d[k]] on a [Dict[str, Any]]. *)
Definition dict_getitem (d : dict) (k : string) : res value :=
  match lookup_key k d with Some x => Ok x | None => Raise KeyError end.

(** [bool(v)] *)
Definition truthy (v : value) : bool :=
  match v with
  | VNone => false
  | VBool b => b
  | VInt n => negb (n =? 0)
  | VStr s => negb (String.eqb s "")
  | VList l => match l with [] => false | _ => true end
  | VDict d => match d with [] => false | _ => true end
  end.

(** [v[:n]]: defined on sequences; a [dict] cannot be sliced. *)
Definition slice_to (n : nat) (v : value) : res value :=
  match v with
  | VStr s => Ok (VStr (String.substring 0 n s))
  | VList l => Ok (VList (take n l))
  | _ => Raise TypeError
  end.

(** [l[-n:]] on a list. *)
Definition last_n {A} (n : nat) (l : list A) : list A :=
  drop (length l - n) l.

Definition lower_ascii (c : Ascii.ascii) : Ascii.ascii :=
  let n := Ascii.nat_of_ascii c in
  if (Nat.leb 65 n && Nat.leb n 90)%bool then Ascii.ascii_of_nat (n + 32) else c.

Fixpoint lower_string (s : string) : string :=
  match s with
  | EmptyString => EmptyString
  | String c s' => String (lower_ascii c) (lower_string s')
  end.

(** [v.lower()]: only [str] has the method. *)
Definition lower (v : value) : res string :=
  match v with
  | VStr s => Ok (lower_string s)
  | _ => Raise AttributeError
  end.

(** [a == b] *)
Fixpoint py_eq (a b : value) {struct a} : bool :=
  match a, b with
  | VNone, VNone => true
  | VBool x, VBool y => Bool.eqb x y
  | VBool x, VInt n => Z.b2z x =? n
  | VInt n, VBool x => n =? Z.b2z x
  | VInt m, VInt n => m =? n
  | VStr s, VStr t => String.eqb s t
  | VList l1, VList l2 =>
      (fix go (l1 l2 : list value) : bool :=
         match l1, l2 with
         | [], [] => true
         | x :: l1', y :: l2' => py_eq x y && go l1' l2'
         | _, _ => false
         end) l1 l2
  | VDict d1, VDict d2 =>
      (length d1 =? length d2)%nat &&
      (fix go (d : dict) : bool :=
         match d with
         | [] => true
         | (k, v) :: d' =>
             match lookup_key k d2 with
             | Some v' => py_eq v v' && go d'
             | None => false
             end
         end) d1
  | _, _ => false
  end.

(** Objects that can be a member of a [set] or a key of a [dict]. *)
Definition hashable (v : value) : bool :=
  match v with
  | VList _ | VDict _ => false
  | _ => true
  end.

(** What Python provides and the code only passes through: [repr] of
    containers, the digest [str(hash(json.dumps(v, sort_keys=True)))],
    and the ISO 8601 printer and parser of [datetime], of which the code
    relies on [fromisoformat] reading back what [isoformat] wrote. *)
Class Runtime := {
  repr_container : value → string;
  hash_json : value → string;
  isoformat : Z → string;
  fromisoformat : string → res Z;
  fromisoformat_isoformat : ∀ t, fromisoformat (isoformat t) = Ok t
}.

(** [f"{v}"], that is [str(v)] *)
Definition str `{Runtime} (v : value) : string :=
  match v with
  | VNone => "None"
  | VBool true => "True"
  | VBool false => "False"
  | VInt n => pretty n
  | VStr s => s
  | VList _ | VDict _ => repr_container v
  end.

(** [a / b] on integers *)
Definition truediv (a b : Z) : res Qc :=
  if b =? 0 then Raise ZeroDivisionError else Ok (Qc_of_Z a / Qc_of_Z b)%Qc.

End Py.

(** ** [PendingActionManager]: the approval state machine *)
Module PendingActions.
Import Py.

(** The five literals the code assigns to [action["status"]]. *)
Inductive status_t : Type := Pending | Confirmed | Rejected | Expired | Executed.

Definition status_str (s : status_t) : string :=
  match s with
  | Pending => "pending"
  | Confirmed => "confirmed"
  | Rejected => "rejected"
  | Expired => "expired"
  | Executed => "executed"
  end.

Global Instance status_eq_dec : EqDecision status_t.
Proof. solve_decision. Defined.

(** The dictionary [pending_data]; the keys that the transitions add
    later ([confirmed_at], [rejected_at], [executed_at],
    [execution_result]) are optional fields. *)
Record pending_data : Type := {
  action_id : string;
  session_id : value;
  created_at : Z;
  expires_at : Z;
  original_action : value;
  suggested_action : value;
  llm_suggestion : value;
  status : status_t;
  confirmed_at : option Z;
  rejected_at : option Z;
  executed_at : option Z;
  execution_result : option value
}.

Definition set_status (s : status_t) (a : pending_data) : pending_data :=
  {| action_id := action_id a; session_id := session_id a;
     created_at := created_at a; expires_at := expires_at a;
     original_action := original_action a; suggested_action := suggested_action a;
     llm_suggestion := llm_suggestion a; status := s;
     confirmed_at := confirmed_at a; rejected_at := rejected_at a;
     executed_at := executed_at a; execution_result := execution_result a |}.

Definition set_confirmed_at (t : Z) (a : pending_data) : pending_data :=
  {| action_id := action_id a; session_id := session_id a;
     created_at := created_at a; expires_at := expires_at a;
     original_action := original_action a; suggested_action := suggested_action a;
     llm_suggestion := llm_suggestion a; status := status a;
     confirmed_at := Some t; rejected_at := rejected_at a;
     executed_at := executed_at a; execution_result := execution_result a |}.

Definition set_rejected_at (t : Z) (a : pending_data) : pending_data :=
  {| action_id := action_id a; session_id := session_id a;
     created_at := created_at a; expires_at := expires_at a;
     original_action := original_action a; suggested_action := suggested_action a;
     llm_suggestion := llm_suggestion a; status := status a;
     confirmed_at := confirmed_at a; rejected_at := Some t;
     executed_at := executed_at a; execution_result := execution_result a |}.

Definition set_executed (t : Z) (r : value) (a : pending_data) : pending_data :=
  {| action_id := action_id a; session_id := session_id a;
     created_at := created_at a; expires_at := expires_at a;
     original_action := original_action a; suggested_action := suggested_action a;
     llm_suggestion := llm_suggestion a; status := status a;
     confirmed_at := confirmed_at a; rejected_at := rejected_at a;
     executed_at := Some t; execution_result := Some r |}.

(** [timedelta(minutes=n)] and [timedelta(hours=n)], in microseconds. *)
Definition minutes (n : Z) : Z := n * 60 * 1000000.
Definition hours (n : Z) : Z := n * 3600 * 1000000.

(** [self.expiry_minutes] *)
Definition expiry_minutes : Z := 30.

(** First loop of [_cleanup_expired]: a pending action past its
    [expires_at] becomes expired. *)
Definition expire_if_due (now : Z) (a : pending_data) : pending_data :=
  if bool_decide (expires_at a < now) && bool_decide (status a = Pending)
  then set_status Expired a else a.

(** [_cleanup_expired], with [now] the value of its [datetime.now()]:
    after the first loop, every action whose [expires_at] is before
    [now - timedelta(hours=24)] is deleted. *)
Definition _cleanup_expired (now : Z) (m : gmap string pending_data)
    : gmap string pending_data :=
  let cutoff := now - hours 24 in
  filter (λ kv, ¬ (expires_at kv.2 < cutoff)) (expire_if_due now <$> m).

(** [create_pending_action]: [epoch] is [int(time.time())], [uuid_hex]
    is [uuid.uuid4().hex], [now1] and [now2] are the two readings of
    the clock for [created_at] and [expires_at], [now3] the one of the
    sweep. *)
Definition create_pending_action (epoch : Z) (uuid_hex : string) (now1 now2 now3 : Z)
    (session original suggested llm : value) (m : gmap string pending_data)
    : string * gmap string pending_data :=
  let id := "pending_" +:+ pretty epoch +:+ "_" +:+ String.substring 0 8 uuid_hex in
  let pending :=
    {| action_id := id; session_id := session;
       created_at := now1; expires_at := now2 + minutes expiry_minutes;
       original_action := original; suggested_action := suggested;
       llm_suggestion := llm; status := Pending;
       confirmed_at := None; rejected_at := None;
       executed_at := None; execution_result := None |} in
  (id, _cleanup_expired now3 (<[id := pending]> m)).

(** [get_pending_action] *)
Definition get_pending_action (now : Z) (id : string) (m : gmap string pending_data)
    : option pending_data * gmap string pending_data :=
  let m' := _cleanup_expired now m in (m' !! id, m').

(** [confirm_action]: [now1] is the clock read by the expiry test,
    [now2] the one stored in [confirmed_at]. The action returned is the
    object held by the store, so the store is updated with it. *)
Definition confirm_action (now1 now2 : Z) (id : string) (m : gmap string pending_data)
    : option pending_data * gmap string pending_data :=
  match m !! id with
  | None => (None, m)
  | Some action =>
      if negb (bool_decide (status action = Pending)) then (None, m)
      else if bool_decide (expires_at action < now1)
      then (None, <[id := set_status Expired action]> m)
      else
        let action' := set_confirmed_at now2 (set_status Confirmed action) in
        (Some action', <[id := action']> m)
  end.

(** [reject_action] *)
Definition reject_action (now : Z) (id : string) (m : gmap string pending_data)
    : option pending_data * gmap string pending_data :=
  match m !! id with
  | Some action =>
      if bool_decide (status action = Pending) then
        let action' := set_rejected_at now (set_status Rejected action) in
        (Some action', <[id := action']> m)
      else (None, m)
  | None => (None, m)
  end.

(** [mark_executed] *)
Definition mark_executed (now : Z) (id : string) (result : value)
    (m : gmap string pending_data)
    : option pending_data * gmap string pending_data :=
  match m !! id with
  | Some action =>
      let action' := set_executed now result (set_status Executed action) in
      (Some action', <[id := action']> m)
  | None => (None, m)
  end.

(** [get_pending_for_session] *)
Definition get_pending_for_session (now : Z) (session : value)
    (m : gmap string pending_data)
    : gmap string pending_data * gmap string pending_data :=
  let m' := _cleanup_expired now m in
  (filter (λ kv, py_eq (session_id kv.2) session = true ∧ status kv.2 = Pending) m', m').

(** [get_status_summary]: ["total"] and ["by_status"], the latter keyed
    by the status literal. *)
Definition get_status_summary (now : Z) (m : gmap string pending_data)
    : (nat * gmap string nat) * gmap string pending_data :=
  let m' := _cleanup_expired now m in
  let by_status :=
    map_fold (λ _ a (acc : gmap string nat),
                <[status_str (status a) := (default 0 (acc !! status_str (status a)) + 1)%nat]> acc)
             ∅ m' in
  ((size m', by_status), m').

(** No action of the store has an [expires_at] more than 24 hours
    before [now]. *)
Definition swept (now : Z) (m : gmap string pending_data) : Prop :=
  ∀ id a, m !! id = Some a → ¬ (expires_at a < now - hours 24).

(** The causes of a failed confirmation or rejection that the
    specification names, and the cause that applies to a call at time
    [now]. *)
Inductive failure : Type := NotFound | AlreadyProcessed | ExpiredError.

Definition confirm_failure (now : Z) (id : string) (m : gmap string pending_data)
    : option failure :=
  match m !! id with
  | None => Some NotFound
  | Some a =>
      if bool_decide (status a = Pending)
      then if bool_decide (expires_at a < now) then Some ExpiredError else None
      else Some AlreadyProcessed
  end.

End PendingActions.

(** ** [LearningEntry] and [LearningDatabase]: the feedback ledger *)
Module Learning.
Import Py.

(** *** [LearningEntry] *)

(** The attributes of a [LearningEntry] object. [from_dict] assigns
    whatever the dictionary holds, so they are [value]s. *)
Record LearningEntry : Type := {
  id : value;
  timestamp : Z;
  suggestion_context : value;
  user_action : value;
  feedback_reason : value;
  execution_result : value;
  context_hash : value;
  pattern_features : value
}.

(** [timestamp.hour] *)
Definition hour (t : Z) : Z := (t / 3600000000) `mod` 24.

Section entry.
Context `{Runtime}.

(** [_generate_context_hash] *)
Definition _generate_context_hash (ctx : value) : res value :=
  oa ← get ctx "original_action" (VDict []);
  ty ← get oa "type" VNone;
  oa' ← get ctx "original_action" (VDict []);
  payload ← get oa' "payload" (VDict []);
  screen ← get payload "screen" VNone;
  bs ← get ctx "business_suggestion" (VStr "");
  bs100 ← slice_to 100 bs;
  Ok (VStr (hash_json (VDict [("action_type", ty); ("screen", screen);
                              ("business_suggestion", bs100)]))).

(** [_analyze_session_pattern] *)
Definition _analyze_session_pattern (ctx : value) (ts : Z) : res value :=
  business_context ← get ctx "business_context" (VDict []);
  session_length ← get business_context "session_length" (VInt 0);
  action_frequency ← get business_context "action_frequency" (VDict []);
  common_screens ← get business_context "most_common_screens" (VList []);
  Ok (VDict [("session_length", session_length);
             ("action_frequency", action_frequency);
             ("common_screens", common_screens);
             ("time_of_day", VInt (hour ts))]).

(** [_extract_pattern_features] *)
Definition _extract_pattern_features (ctx : value) (ts : Z) : res value :=
  original_action ← get ctx "original_action" (VDict []);
  suggested_action ← get ctx "suggested_action" (VDict []);
  action_type ← get original_action "type" VNone;
  payload ← get original_action "payload" (VDict []);
  screen ← get payload "screen" VNone;
  suggested_method ←
    (if truthy suggested_action then get suggested_action "method" VNone else Ok VNone);
  suggested_endpoint ←
    (if truthy suggested_action then get suggested_action "endpoint" VNone else Ok VNone);
  business_context ← get ctx "business_context" (VDict []);
  session_pattern ← _analyze_session_pattern ctx ts;
  Ok (VDict [("action_type", action_type);
             ("screen", screen);
             ("suggested_method", suggested_method);
             ("suggested_endpoint", suggested_endpoint);
             ("business_context", business_context);
             ("session_pattern", session_pattern)]).

(** [LearningEntry.__init__]: [uuid] is [str(uuid.uuid4())] and [now]
    is [datetime.now()]. *)
Definition LearningEntry_init (uuid : string) (now : Z)
    (ctx ua reason result : value) : res LearningEntry :=
  h ← _generate_context_hash ctx;
  pf ← _extract_pattern_features ctx now;
  Ok {| id := VStr uuid; timestamp := now; suggestion_context := ctx;
        user_action := ua; feedback_reason := reason; execution_result := result;
        context_hash := h; pattern_features := pf |}.

(** [to_dict] *)
Definition to_dict (e : LearningEntry) : dict :=
  [("id", id e);
   ("timestamp", VStr (isoformat (timestamp e)));
   ("suggestion_context", suggestion_context e);
   ("user_action", user_action e);
   ("feedback_reason", feedback_reason e);
   ("execution_result", execution_result e);
   ("context_hash", context_hash e);
   ("pattern_features", pattern_features e)].

(** [datetime.fromisoformat(v)]: the argument must be a [str]. *)
Definition parse_timestamp (v : value) : res Z :=
  match v with
  | VStr s => fromisoformat s
  | _ => Raise TypeError
  end.

(** [from_dict]: [uuid] and [now] are consumed by the constructor that
    the class method calls first. *)
Definition from_dict (uuid : string) (now : Z) (data : dict) : res LearningEntry :=
  ctx ← dict_getitem data "suggestion_context";
  ua ← dict_getitem data "user_action";
  entry ← LearningEntry_init uuid now ctx ua
            (dict_get data "feedback_reason" VNone)
            (dict_get data "execution_result" VNone);
  id' ← dict_getitem data "id";
  ts_str ← dict_getitem data "timestamp";
  ts ← parse_timestamp ts_str;
  h ← dict_getitem data "context_hash";
  pf ← dict_getitem data "pattern_features";
  Ok {| id := id'; timestamp := ts;
        suggestion_context := suggestion_context entry;
        user_action := user_action entry;
        feedback_reason := feedback_reason entry;
        execution_result := execution_result entry;
        context_hash := h; pattern_features := pf |}.

End entry.

(** *** The pattern table *)

(** [suggestion_summary]: the key ["reason"] is only set for a rejection. *)
Record summary : Type := {
  business_suggestion : value;
  suggested_action : value;
  summary_timestamp : string;
  reason : option value
}.

(** A value of [self.patterns]. [common_rejection_reasons] keeps the
    insertion order of its keys, like the dictionary of the source. *)
Record pattern : Type := {
  total_suggestions : Z;
  accepted : Z;
  rejected : Z;
  ignored : Z;
  success_rate : Qc;
  common_rejection_reasons : list (value * Z);
  successful_suggestions : list summary;
  failed_suggestions : list summary;
  last_updated : string
}.

Definition new_pattern (stamp : string) : pattern :=
  {| total_suggestions := 0; accepted := 0; rejected := 0; ignored := 0;
     success_rate := 0%Qc; common_rejection_reasons := [];
     successful_suggestions := []; failed_suggestions := [];
     last_updated := stamp |}.

Definition set_total (n : Z) (p : pattern) : pattern :=
  {| total_suggestions := n; accepted := accepted p; rejected := rejected p;
     ignored := ignored p; success_rate := success_rate p;
     common_rejection_reasons := common_rejection_reasons p;
     successful_suggestions := successful_suggestions p;
     failed_suggestions := failed_suggestions p; last_updated := last_updated p |}.

Definition set_accepted (n : Z) (p : pattern) : pattern :=
  {| total_suggestions := total_suggestions p; accepted := n; rejected := rejected p;
     ignored := ignored p; success_rate := success_rate p;
     common_rejection_reasons := common_rejection_reasons p;
     successful_suggestions := successful_suggestions p;
     failed_suggestions := failed_suggestions p; last_updated := last_updated p |}.

Definition set_rejected (n : Z) (p : pattern) : pattern :=
  {| total_suggestions := total_suggestions p; accepted := accepted p; rejected := n;
     ignored := ignored p; success_rate := success_rate p;
     common_rejection_reasons := common_rejection_reasons p;
     successful_suggestions := successful_suggestions p;
     failed_suggestions := failed_suggestions p; last_updated := last_updated p |}.

Definition set_ignored (n : Z) (p : pattern) : pattern :=
  {| total_suggestions := total_suggestions p; accepted := accepted p;
     rejected := rejected p; ignored := n; success_rate := success_rate p;
     common_rejection_reasons := common_rejection_reasons p;
     successful_suggestions := successful_suggestions p;
     failed_suggestions := failed_suggestions p; last_updated := last_updated p |}.

Definition set_success_rate (r : Qc) (p : pattern) : pattern :=
  {| total_suggestions := total_suggestions p; accepted := accepted p;
     rejected := rejected p; ignored := ignored p; success_rate := r;
     common_rejection_reasons := common_rejection_reasons p;
     successful_suggestions := successful_suggestions p;
     failed_suggestions := failed_suggestions p; last_updated := last_updated p |}.

Definition set_reasons (rs : list (value * Z)) (p : pattern) : pattern :=
  {| total_suggestions := total_suggestions p; accepted := accepted p;
     rejected := rejected p; ignored := ignored p; success_rate := success_rate p;
     common_rejection_reasons := rs;
     successful_suggestions := successful_suggestions p;
     failed_suggestions := failed_suggestions p; last_updated := last_updated p |}.

Definition set_successful (l : list summary) (p : pattern) : pattern :=
  {| total_suggestions := total_suggestions p; accepted := accepted p;
     rejected := rejected p; ignored := ignored p; success_rate := success_rate p;
     common_rejection_reasons := common_rejection_reasons p;
     successful_suggestions := l;
     failed_suggestions := failed_suggestions p; last_updated := last_updated p |}.

Definition set_failed (l : list summary) (p : pattern) : pattern :=
  {| total_suggestions := total_suggestions p; accepted := accepted p;
     rejected := rejected p; ignored := ignored p; success_rate := success_rate p;
     common_rejection_reasons := common_rejection_reasons p;
     successful_suggestions := successful_suggestions p;
     failed_suggestions := l; last_updated := last_updated p |}.

Definition set_last_updated (s : string) (p : pattern) : pattern :=
  {| total_suggestions := total_suggestions p; accepted := accepted p;
     rejected := rejected p; ignored := ignored p; success_rate := success_rate p;
     common_rejection_reasons := common_rejection_reasons p;
     successful_suggestions := successful_suggestions p;
     failed_suggestions := failed_suggestions p; last_updated := s |}.

(** The statements of [_update_patterns] mutate one pattern in place and
    may raise in between: a computation returns the pattern as mutated
    so far together with its result. *)
Definition upd (A : Type) : Type := pattern → pattern * res A.

Global Instance upd_ret : MRet upd := λ A a p, (p, Ok a).
Global Instance upd_bind : MBind upd := λ A B f m p,
  match m p with
  | (p', Ok a) => f a p'
  | (p', Raise e) => (p', Raise e)
  end.

Definition modify (f : pattern → pattern) : upd unit := λ p, (f p, Ok tt).
Definition lift {A} (r : res A) : upd A := λ p, (p, r).
Definition attempt (f : pattern → res pattern) : upd unit := λ p,
  match f p with
  | Ok p' => (p', Ok tt)
  | Raise e => (p, Raise e)
  end.

(** [pattern[key] += 1] for the key held by [entry.user_action]. The
    counters and the rate can be incremented; the other five keys hold
    a dictionary, a list or a string, and any other object is not a key
    of the pattern (or cannot be hashed). *)
Definition increment_key (key : value) (p : pattern) : res pattern :=
  match key with
  | VStr k =>
      if bool_decide (k = "total_suggestions") then Ok (set_total (total_suggestions p + 1) p)
      else if bool_decide (k = "accepted") then Ok (set_accepted (accepted p + 1) p)
      else if bool_decide (k = "rejected") then Ok (set_rejected (rejected p + 1) p)
      else if bool_decide (k = "ignored") then Ok (set_ignored (ignored p + 1) p)
      else if bool_decide (k = "success_rate") then Ok (set_success_rate (success_rate p + 1)%Qc p)
      else if bool_decide (k ∈ ["common_rejection_reasons"; "successful_suggestions";
                               "failed_suggestions"; "last_updated"])
      then Raise TypeError
      else Raise KeyError
  | VList _ | VDict _ => Raise TypeError
  | _ => Raise KeyError
  end.

(** [reasons[k] = reasons.get(k, 0) + 1] *)
Fixpoint reasons_incr (k : value) (rs : list (value * Z)) : list (value * Z) :=
  match rs with
  | [] => [(k, 1)]
  | (k', n) :: rs' =>
      if py_eq k' k then (k', n + 1) :: rs' else (k', n) :: reasons_incr k rs'
  end.

Definition track_reason (k : value) (p : pattern) : res pattern :=
  if hashable k then Ok (set_reasons (reasons_incr k (common_rejection_reasons p)) p)
  else Raise TypeError.

(** *** [LearningDatabase] *)

(** [self.entries] and [self.patterns]. The two files written by
    [_save_data] and the vector store are outside the embedding: they
    are written after the in-memory state has been updated and are
    never read back by the functions below. *)
Record db : Type := {
  entries : list LearningEntry;
  patterns : gmap string pattern
}.

Definition empty_db : db := {| entries := []; patterns := ∅ |}.

Section database.
Context `{Runtime}.

(** The key computed at the head of [_update_patterns] *)
Definition entry_pattern_key (entry : LearningEntry) : res string :=
  action_type ← getitem (pattern_features entry) "action_type";
  screen ← getitem (pattern_features entry) "screen";
  Ok (str action_type +:+ "_" +:+ str screen).

(** The summary appended to the rolling lists *)
Definition suggestion_summary (entry : LearningEntry) : res summary :=
  bs ← get (suggestion_context entry) "business_suggestion" (VStr "");
  bs200 ← slice_to 200 bs;
  sa ← get (suggestion_context entry) "suggested_action" VNone;
  Ok {| business_suggestion := bs200; suggested_action := sa;
        summary_timestamp := isoformat (timestamp entry); reason := None |}.

Definition with_reason (r : value) (s : summary) : summary :=
  {| business_suggestion := business_suggestion s;
     suggested_action := suggested_action s;
     summary_timestamp := summary_timestamp s; reason := Some r |}.

(** The body of [_update_patterns] from [pattern["total_suggestions"] += 1]
    on; [now] is the clock stored in [last_updated]. *)
Definition update_pattern (entry : LearningEntry) (now : Z) : upd unit :=
  modify (λ p, set_total (total_suggestions p + 1) p);;
  attempt (increment_key (user_action entry));;
  rate ← (λ p, lift (truediv (accepted p) (total_suggestions p)) p);
  modify (set_success_rate rate);;
  modify (set_last_updated (isoformat now));;
  (if py_eq (user_action entry) (VStr "rejected") && truthy (feedback_reason entry)
   then attempt (track_reason (feedback_reason entry))
   else mret tt);;
  s ← lift (suggestion_summary entry);
  if py_eq (user_action entry) (VStr "accepted") then
    modify (λ p, set_successful (last_n 10 (successful_suggestions p ++ [s])) p)
  else if py_eq (user_action entry) (VStr "rejected") then
    modify (λ p, set_failed
                   (last_n 10 (failed_suggestions p ++ [with_reason (feedback_reason entry) s])) p)
  else mret tt.

(** [_update_patterns]: [now1] is the clock of a newly created pattern,
    [now2] the one of the update. What was mutated before an exception
    stays in the table. *)
Definition _update_patterns (entry : LearningEntry) (now1 now2 : Z)
    (pats : gmap string pattern) : gmap string pattern * res unit :=
  match entry_pattern_key entry with
  | Raise e => (pats, Raise e)
  | Ok key =>
      let p0 := default (new_pattern (isoformat now1)) (pats !! key) in
      let '(p, r) := update_pattern entry now2 p0 in
      (<[key := p]> pats, r)
  end.

Definition of_option (o : option string) : value :=
  match o with Some s => VStr s | None => VNone end.

Definition of_option_dict (o : option dict) : value :=
  match o with Some d => VDict d | None => VNone end.

(** [record_feedback]: the arguments have the types the signature
    declares; [uuid] and [now0] go to the new entry, [now1] and [now2]
    to [_update_patterns]. The handler of the [try] block returns
    [None] and keeps the state as it is at the exception. *)
Definition record_feedback (uuid : string) (now0 now1 now2 : Z)
    (action_id : string) (suggestion_context : dict) (user_action : string)
    (feedback_reason : option string) (execution_result : option dict)
    (d : db) : option value * db :=
  match LearningEntry_init uuid now0 (VDict suggestion_context) (VStr user_action)
          (of_option feedback_reason) (of_option_dict execution_result) with
  | Raise _ => (None, d)
  | Ok entry =>
      let entries' := (entries d ++ [entry])%list in
      let '(pats, r) := _update_patterns entry now1 now2 (patterns d) in
      let d' := {| entries := entries'; patterns := pats |} in
      match r with
      | Raise _ => (None, d')
      | Ok _ => (Some (id entry), d')
      end
  end.

(** [sorted(l, key=key, reverse=True)]: descending in the key, and
    stable, elements with equal keys stay in their order in [l]. *)
Section sorted.
Context {A K : Type} (key : A → K) (lt : K → K → Prop) `{!RelDecision lt}.

Fixpoint insert_desc (x : A) (l : list A) : list A :=
  match l with
  | [] => [x]
  | y :: l' =>
      if bool_decide (lt (key x) (key y)) then y :: insert_desc x l' else x :: y :: l'
  end.

Definition sorted_desc (l : list A) : list A := foldr insert_desc [] l.
End sorted.

(** The float literals of the source *)
Definition f0_5 : Qc := Q2Qc (1 # 2).
Definition f0_3 : Qc := Q2Qc (3 # 10).
Definition f0_2 : Qc := Q2Qc (1 # 5).
Definition f0_9 : Qc := Q2Qc (9 # 10).

(** [min(a, b)] *)
Definition py_min (a b : Qc) : Qc := if bool_decide (b < a)%Qc then b else a.

(** A [set] of hashable objects: a list without two equal members. *)
Definition member (x : value) (s : list value) : bool := existsb (py_eq x) s.

Fixpoint distinct (l : list value) : list value :=
  match l with
  | [] => []
  | x :: l' => let r := distinct l' in if member x r then r else x :: r
  end.

(** [set(v)]: the members of a list, the characters of a string, the
    keys of a dictionary; other objects are not iterable and a list or
    dictionary cannot be a member. *)
Definition to_set (v : value) : res (list value) :=
  match v with
  | VList l => if forallb hashable l then Ok (distinct l) else Raise TypeError
  | VStr s => Ok (distinct ((λ c, VStr (String c "")) <$> String.list_ascii_of_string s))
  | VDict d => Ok (distinct ((λ kv, VStr kv.1) <$> d))
  | _ => Raise TypeError
  end.

Definition set_inter (s1 s2 : list value) : list value :=
  filter (λ x, member x s2 = true) s1.

Definition set_union (s1 s2 : list value) : list value :=
  (s1 ++ filter (λ x, member x s1 = false) s2)%list.

Definition nonempty {A} (l : list A) : bool :=
  match l with [] => false | _ => true end.

(** [_contexts_similar] *)
Definition _contexts_similar (context1 context2 : value) : res bool :=
  l1 ← get context1 "most_common_screens" (VList []);
  common_screens1 ← to_set l1;
  l2 ← get context2 "most_common_screens" (VList []);
  common_screens2 ← to_set l2;
  if nonempty common_screens1 && nonempty common_screens2 then
    let overlap := Z.of_nat (length (set_inter common_screens1 common_screens2)) in
    let union := Z.of_nat (length (set_union common_screens1 common_screens2)) in
    if bool_decide (0 < union) then
      ratio ← truediv overlap union;
      Ok (bool_decide (f0_3 < ratio)%Qc)
    else Ok false
  else Ok false.

(** An element of the list [_find_similar_contexts] returns *)
Record similar : Type := {
  sim_action : value;
  similarity_score : Qc;
  sim_business_suggestion : value;
  sim_feedback_reason : value;
  sim_timestamp : string
}.

(** The score of one ledger entry, as the loop body computes it *)
Definition entry_score (current_screen : string) (current_type : value)
    (business_context : value) (entry : LearningEntry) : res Qc :=
  entry_action ← get (suggestion_context entry) "original_action" (VDict []);
  payload ← get entry_action "payload" (VDict []);
  screen ← get payload "screen" (VStr "");
  entry_screen ← lower screen;
  entry_type ← get entry_action "type" (VStr "");
  let score := 0%Qc in
  let score := if bool_decide (entry_screen = current_screen)
               then (score + f0_5)%Qc else score in
  let score := if py_eq entry_type current_type then (score + f0_3)%Qc else score in
  entry_context ← get (suggestion_context entry) "business_context" (VDict []);
  sim ← _contexts_similar business_context entry_context;
  Ok (if (sim : bool) then (score + f0_2)%Qc else score).

(** One iteration of the loop: the dictionary appended to [similar],
    if any. *)
Definition scan_entry (current_screen : string) (current_type : value)
    (business_context : value) (entry : LearningEntry) : res (option similar) :=
  score ← entry_score current_screen current_type business_context entry;
  if bool_decide (f0_5 ≤ score)%Qc then
    bs ← get (suggestion_context entry) "business_suggestion" (VStr "");
    bs100 ← slice_to 100 bs;
    Ok (Some {| sim_action := user_action entry; similarity_score := score;
                sim_business_suggestion := bs100;
                sim_feedback_reason := feedback_reason entry;
                sim_timestamp := isoformat (timestamp entry) |})
  else Ok None.

(** The loop: entries in order, the first exception ends it. *)
Fixpoint scan (current_screen : string) (current_type : value)
    (business_context : value) (l : list LearningEntry) : res (list similar) :=
  match l with
  | [] => Ok []
  | entry :: l' =>
      hit ← scan_entry current_screen current_type business_context entry;
      rest ← scan current_screen current_type business_context l';
      Ok (match hit with Some s => s :: rest | None => rest end)
  end.

(** [_find_similar_contexts] *)
Definition _find_similar_contexts (current_action business_context : dict)
    (d : db) : res (list similar) :=
  screen ← get (dict_get current_action "payload" (VDict [])) "screen" (VStr "");
  current_screen ← lower screen;
  let current_type := dict_get current_action "type" (VStr "") in
  found ← scan current_screen current_type (VDict business_context)
            (last_n 50 (entries d));
  Ok (take 5 (sorted_desc similarity_score Qclt found)).

(** The dictionary [guidance] *)
Record guidance : Type := {
  should_suggest : bool;
  confidence_score : Qc;
  suggested_approach : string;
  avoid_patterns : list value;
  preferred_patterns : list value;
  historical_success_rate : Qc;
  similar_contexts : list similar
}.

(** What [get_suggestion_guidance] returns: the seven keys of
    [guidance], or from the handler of its [try] block the dictionary
    [{"should_suggest": True, "confidence_score": 0.5}], which has no
    other key. *)
Inductive guidance_result : Type :=
  | Guidance (g : guidance)
  | Fallback.

(** [result["should_suggest"]] and [result["confidence_score"]], which
    both shapes have, and [result.get(k)] for the other keys. *)
Definition result_should_suggest (r : guidance_result) : bool :=
  match r with Guidance g => should_suggest g | Fallback => true end.

Definition result_confidence_score (r : guidance_result) : Qc :=
  match r with Guidance g => confidence_score g | Fallback => f0_5 end.

Definition result_get {A} (field : guidance → A) (r : guidance_result) : option A :=
  match r with Guidance g => Some (field g) | Fallback => None end.

(** The key computed at the head of [get_suggestion_guidance] *)
Definition action_pattern_key (current_action : dict) : res string :=
  let action_type := dict_get current_action "type" VNone in
  screen ← get (dict_get current_action "payload" (VDict [])) "screen" VNone;
  Ok (str action_type +:+ "_" +:+ str screen).

(** The [try] block of [get_suggestion_guidance] *)
Definition guidance_body (current_action business_context : dict) (d : db)
    : res guidance :=
  pattern_key ← action_pattern_key current_action;
  let g :=
    match patterns d !! pattern_key with
    | Some pattern =>
        let low := bool_decide (success_rate pattern < f0_3)%Qc in
        let top_rejections :=
          take 3 (sorted_desc snd Z.lt (common_rejection_reasons pattern)) in
        {| should_suggest := if low then false else true;
           confidence_score := py_min f0_9 (success_rate pattern);
           suggested_approach := if low then "cautious" else "standard";
           avoid_patterns := fst <$> top_rejections;
           preferred_patterns :=
             business_suggestion <$> last_n 3 (successful_suggestions pattern);
           historical_success_rate := success_rate pattern;
           similar_contexts := [] |}
    | None =>
        {| should_suggest := true; confidence_score := f0_5;
           suggested_approach := "standard"; avoid_patterns := [];
           preferred_patterns := []; historical_success_rate := 0%Qc;
           similar_contexts := [] |}
    end in
  similar_contexts ← _find_similar_contexts current_action business_context d;
  Ok {| should_suggest := should_suggest g; confidence_score := confidence_score g;
        suggested_approach := suggested_approach g;
        avoid_patterns := avoid_patterns g;
        preferred_patterns := preferred_patterns g;
        historical_success_rate := historical_success_rate g;
        similar_contexts := similar_contexts |}.

(** [get_suggestion_guidance] *)
Definition get_suggestion_guidance (current_action business_context : dict) (d : db)
    : guidance_result :=
  match guidance_body current_action business_context d with
  | Ok g => Guidance g
  | Raise _ => Fallback
  end.

(** The arguments of one call of [record_feedback], with the values the
    call reads from the environment, and the state after a sequence of
    calls. *)
Record call : Type := {
  call_uuid : string;
  call_now0 : Z;
  call_now1 : Z;
  call_now2 : Z;
  call_action_id : string;
  call_context : dict;
  call_user_action : string;
  call_reason : option string;
  call_result : option dict
}.

Definition apply_call (c : call) (d : db) : option value * db :=
  record_feedback (call_uuid c) (call_now0 c) (call_now1 c) (call_now2 c)
    (call_action_id c) (call_context c) (call_user_action c)
    (call_reason c) (call_result c) d.

Definition run (cs : list call) (d : db) : db :=
  foldl (λ d c, (apply_call c d).2) d cs.

(** Both rolling lists of a pattern hold at most ten summaries. *)
Definition bounded (p : pattern) : Prop :=
  (length (successful_suggestions p) ≤ 10)%nat
  ∧ (length (failed_suggestions p) ≤ 10)%nat.

(** The stored rate is the quotient of the stored counters. *)
Definition rate_consistent (p : pattern) : Prop :=
  truediv (accepted p) (total_suggestions p) = Ok (success_rate p).

(** The objects of class [LearningEntry]: each one comes out of the
    constructor or out of [from_dict]. *)
Inductive constructed : LearningEntry → Prop :=
  | constructed_init uuid now ctx ua reason result e :
      LearningEntry_init uuid now ctx ua reason result = Ok e → constructed e
  | constructed_from_dict uuid now data e :
      from_dict uuid now data = Ok e → constructed e.







(** What the scan reads in a ledger entry: the screen in lower case,
    the action type, and the set of most common screens. *)
Definition recorded_screen (entry : LearningEntry) : res string :=
  a ← get (suggestion_context entry) "original_action" (VDict []);
  payload ← get a "payload" (VDict []);
  screen ← get payload "screen" (VStr "");
  lower screen.

Definition recorded_type (entry : LearningEntry) : res value :=
  a ← get (suggestion_context entry) "original_action" (VDict []);
  get a "type" (VStr "").

Definition common_screens (context : value) : res (list value) :=
  l ← get context "most_common_screens" (VList []);
  to_set l.

Definition recorded_screens (entry : LearningEntry) : res (list value) :=
  context ← get (suggestion_context entry) "business_context" (VDict []);
  common_screens context.



(** The counters and the rate of [q] are those of [p]. *)
Definition same_counters (p q : pattern) : Prop :=
  total_suggestions q = total_suggestions p ∧ accepted q = accepted p
  ∧ success_rate q = success_rate p.

(** A pattern of the table after an update with a documented action *)
Definition stored_ok (p : pattern) : Prop :=
  0 < total_suggestions p ∧ rate_consistent p.

(** The three values of [user_action] that the signature documents *)
Definition valid_action (ua : string) : Prop :=
  ua ∈ ["accepted"; "rejected"; "ignored"].

End database.

End Learning.

(** ** A runtime and sample data for the examples *)
Module Samples.
Import Py.

(** A printer of time stamps that its parser reads back: sign and
    binary digits, lowest first. *)
Fixpoint bits_of_pos (p : positive) : string :=
  match p with
  | xH => ""
  | xO p => String "0" (bits_of_pos p)
  | xI p => String "1" (bits_of_pos p)
  end.

Fixpoint pos_of_bits (s : string) : positive :=
  match s with
  | EmptyString => xH
  | String c s => if Ascii.eqb c "0" then xO (pos_of_bits s) else xI (pos_of_bits s)
  end.

Definition print_time (t : Z) : string :=
  match t with
  | Z0 => "0"
  | Zpos p => String "+" (bits_of_pos p)
  | Zneg p => String "-" (bits_of_pos p)
  end.

Definition read_time (s : string) : res Z :=
  match s with
  | String c s' =>
      if Ascii.eqb c "0" then Ok Z0
      else if Ascii.eqb c "+" then Ok (Zpos (pos_of_bits s'))
      else if Ascii.eqb c "-" then Ok (Zneg (pos_of_bits s'))
      else Raise ValueError
  | EmptyString => Raise ValueError
  end.

#[export] Instance runtime : Runtime.
Proof.
  refine {| repr_container := λ _, "<container>";
            hash_json := λ _, "0";
            isoformat := print_time;
            fromisoformat := read_time |}.
  assert (Hbits : ∀ p, pos_of_bits (bits_of_pos p) = p)
    by (induction p; simpl; congruence).
  intros [| p | p]; simpl; by rewrite ?Hbits.
Defined.

(** The action of scenario 1 of the specification *)
Definition open_sales_order : dict :=
  [("type", VStr "open_screen"); ("payload", VDict [("screen", VStr "SalesOrder")])].

Definition sales_order_context : dict :=
  [("original_action", VDict open_sales_order);
   ("business_suggestion", VStr "Add related items?");
   ("suggested_action", VDict [("method", VStr "PUT"); ("endpoint", VStr "/SalesOrder")]);
   ("business_context", VDict [])].

(** An action with a type and no payload, and the same with a payload
    whose screen is [None]. *)
Definition open_no_screen : dict := [("type", VStr "open_screen")].

Definition open_null_screen : dict :=
  [("type", VStr "open_screen"); ("payload", VDict [("screen", VNone)])].

Definition no_screen_context : dict :=
  [("original_action", VDict open_no_screen);
   ("business_suggestion", VStr "Add related items?")].


Definition pending_sample : PendingActions.pending_data :=
  {| PendingActions.action_id := "p1";
     PendingActions.session_id := VStr "s1";
     PendingActions.created_at := 0;
     PendingActions.expires_at := PendingActions.minutes 30;
     PendingActions.original_action := VDict open_sales_order;
     PendingActions.suggested_action := VDict [("method", VStr "PUT")];
     PendingActions.llm_suggestion := VStr "Add related items?";
     PendingActions.status := PendingActions.Pending;
     PendingActions.confirmed_at := None;
     PendingActions.rejected_at := None;
     PendingActions.executed_at := None;
     PendingActions.execution_result := None |}.

(** Calls of [record_feedback] *)
Definition accept_call : Learning.call :=
  {| Learning.call_uuid := "u1"; Learning.call_now0 := 1;
     Learning.call_now1 := 2; Learning.call_now2 := 3;
     Learning.call_action_id := "pending_1_aa"; Learning.call_context := sales_order_context;
     Learning.call_user_action := "accepted"; Learning.call_reason := None;
     Learning.call_result := Some [("status", VInt 200)] |}.

Definition reject_call : Learning.call :=
  {| Learning.call_uuid := "u2"; Learning.call_now0 := 4;
     Learning.call_now1 := 5; Learning.call_now2 := 6;
     Learning.call_action_id := "pending_4_bb"; Learning.call_context := sales_order_context;
     Learning.call_user_action := "rejected"; Learning.call_reason := Some "wrong vendor";
     Learning.call_result := None |}.

Definition reject_no_screen_call : Learning.call :=
  {| Learning.call_uuid := "u3"; Learning.call_now0 := 7;
     Learning.call_now1 := 8; Learning.call_now2 := 9;
     Learning.call_action_id := "pending_7_cc"; Learning.call_context := no_screen_context;
     Learning.call_user_action := "rejected"; Learning.call_reason := Some "wrong vendor";
     Learning.call_result := None |}.


End Samples.

Local Open Scope list_scope.

(** * Sequences of calls, the ledger behind the table, and the history *)

(** ** Calls of the manager *)
Module PendingOps.
Import Py PendingActions.

(** The calls a client of the manager can make, with the values each
    call reads from the environment. *)
Inductive op : Type :=
  | Create (epoch : Z) (uuid_hex : string) (now1 now2 now3 : Z)
      (session original suggested llm : value)
  | Get (now : Z) (id : string)
  | Confirm (now1 now2 : Z) (id : string)
  | Reject (now : Z) (id : string)
  | MarkExecuted (now : Z) (id : string) (result : value)
  | ListPending (now : Z) (session : value)
  | Summary (now : Z).

(** The store after one call *)
Definition step (o : op) (m : gmap string pending_data) : gmap string pending_data :=
  match o with
  | Create epoch uuid_hex now1 now2 now3 session original suggested llm =>
      (create_pending_action epoch uuid_hex now1 now2 now3 session original suggested llm m).2
  | Get now id => (get_pending_action now id m).2
  | Confirm now1 now2 id => (confirm_action now1 now2 id m).2
  | Reject now id => (reject_action now id m).2
  | MarkExecuted now id result => (mark_executed now id result m).2
  | ListPending now session => (get_pending_for_session now session m).2
  | Summary now => (get_status_summary now m).2
  end.

Definition run (ops : list op) (m : gmap string pending_data) : gmap string pending_data :=
  foldl (λ m o, step o m) m ops.

(** The status may move from [s] to [s']: it stays, leaves pending for
    confirmed, rejected or expired, or becomes executed. *)
Definition transition (s s' : status_t) : Prop :=
  s' = s ∨ (s = Pending ∧ s' ∈ [Confirmed; Rejected; Expired]) ∨ s' = Executed.

(** The fields that no transition writes *)
Definition same_proposal (a a' : pending_data) : Prop :=
  action_id a' = action_id a ∧ session_id a' = session_id a
  ∧ created_at a' = created_at a ∧ expires_at a' = expires_at a
  ∧ original_action a' = original_action a
  ∧ suggested_action a' = suggested_action a
  ∧ llm_suggestion a' = llm_suggestion a.

(** How the stamps of a stored action relate to its status *)
Definition stamps_ok (id : string) (a : pending_data) : Prop :=
  action_id a = id
  ∧ (status a = Pending → confirmed_at a = None ∧ rejected_at a = None)
  ∧ (confirmed_at a = None ∨ rejected_at a = None)
  ∧ (status a = Confirmed → is_Some (confirmed_at a))
  ∧ (status a = Rejected → is_Some (rejected_at a))
  ∧ (status a = Executed ↔ is_Some (executed_at a))
  ∧ (is_Some (executed_at a) ↔ is_Some (execution_result a)).


(** The call creates the action stored under [id]. *)
Definition creates (o : op) (id : string) : Prop :=
  match o with
  | Create epoch uuid_hex _ _ _ _ _ _ _ =>
      id = "pending_" +:+ pretty epoch +:+ "_" +:+ String.substring 0 8 uuid_hex
  | _ => False
  end.

(** The clock read by the sweep of the call, when it runs one *)
Definition sweep_time (o : op) : option Z :=
  match o with
  | Create _ _ _ _ now3 _ _ _ _ => Some now3
  | Get now _ | ListPending now _ | Summary now => Some now
  | Confirm _ _ _ | Reject _ _ | MarkExecuted _ _ _ => None
  end.


(** The statuses, and the number of actions that [by_status] reports
    for one of them ([by_status.get(status, 0)]) *)
Definition all_statuses : list status_t :=
  [Pending; Confirmed; Rejected; Expired; Executed].

Definition reported (by_status : gmap string nat) (s : status_t) : nat :=
  default 0%nat (by_status !! status_str s).

(** The action [create_pending_action] builds *)
Definition new_action (id : string) (now1 now2 : Z)
    (session original suggested llm : value) : pending_data :=
  {| action_id := id; session_id := session;
     created_at := now1; expires_at := now2 + minutes expiry_minutes;
     original_action := original; suggested_action := suggested;
     llm_suggestion := llm; status := Pending;
     confirmed_at := None; rejected_at := None;
     executed_at := None; execution_result := None |}.

End PendingOps.

(** ** The ledger read as the source of the pattern table *)
Module Ledger.
Import Py Learning.

(** What [pattern[ua] += 1] adds to the counter [target] *)
Definition bump (ua target : string) : Z := if decide (ua = target) then 1 else 0.

Section ledger.
Context `{Runtime}.

(** The entry belongs to the pattern [k]; its action is [ua]. *)
Definition has_key (k : string) (e : LearningEntry) : bool :=
  match entry_pattern_key e with
  | Ok k' => String.eqb k' k
  | Raise _ => false
  end.

Definition has_action (ua : string) (e : LearningEntry) : bool :=
  py_eq (user_action e) (VStr ua).

(** The number of entries of the ledger with key [k], and among them
    those with action [ua] *)
Definition entries_of (k : string) (l : list LearningEntry) : Z :=
  Z.of_nat (length (filter (λ e, has_key k e = true) l)).

Definition entries_with (k ua : string) (l : list LearningEntry) : Z :=
  Z.of_nat (length (filter (λ e, has_key k e && has_action ua e = true) l)).

(** A counter of the pattern [k], 0 when the table has no such pattern *)
Definition counter (f : pattern → Z) (d : db) (k : string) : Z :=
  match patterns d !! k with Some p => f p | None => 0 end.

(** The counters of the table agree with the ledger. *)
Definition counters_match (d : db) : Prop :=
  ∀ k,
    counter accepted d k = entries_with k "accepted" (entries d)
    ∧ counter rejected d k = entries_with k "rejected" (entries d)
    ∧ counter ignored d k = entries_with k "ignored" (entries d)
    ∧ counter total_suggestions d k
      = entries_of k (entries d) + entries_with k "total_suggestions" (entries d)
    ∧ (is_Some (patterns d !! k) ↔ 0 < entries_of k (entries d)).

(** The counters of a pattern are natural numbers, the three outcomes
    are counted in the total, and the rate is a proportion. *)
Definition in_range (p : pattern) : Prop :=
  0 ≤ accepted p ∧ 0 ≤ rejected p ∧ 0 ≤ ignored p
  ∧ accepted p + rejected p + ignored p ≤ total_suggestions p
  ∧ (0 ≤ success_rate p)%Qc ∧ (success_rate p ≤ 1)%Qc.












End ledger.
End Ledger.

(** ** [routes.py]: the planning rule of [/action] *)
Module Planning.
Import Py.

(** [v or {}] *)
Definition or_empty (v : value) : value := if truthy v then v else VDict [].

Definition purchase_order_plan : dict :=
  [("description", VStr "Fetch Purchase Orders (exact curl replication with ?=null).");
   ("path", VStr "/entity/Default/20.200.001/PurchaseOrder");
   ("params", VNone);
   ("raw_url_suffix", VStr "?=null")].

Definition sales_order_plan : dict :=
  [("description", VStr "Fetch SalesOrders with expanded Details/Allocations.");
   ("path", VStr "/entity/Default/20.200.001/SalesOrder");
   ("params", VDict [("$expand", VStr "Details/Allocations")])].

Section planning.
Context `{Runtime}.

(** [plan_historical_get]: the plan, or [None] when no rule applies *)
Definition plan_historical_get (action : value) : res (option dict) :=
  a_type ← get (or_empty action) "type" VNone;
  payload ← get (or_empty action) "payload" (VDict []);
  screen ← get (or_empty payload) "screen" (VStr "");
  if py_eq a_type (VStr "open_screen")
     && String.eqb (lower_string (str screen)) "purchaseorder"
  then Ok (Some purchase_order_plan)
  else if py_eq a_type (VStr "open_screen")
          && String.eqb (lower_string (str screen)) "salesorder"
  then Ok (Some sales_order_plan)
  else Ok None.

End planning.
End Planning.

(** ** [data_processor.py] *)
Module DataProcessor.
Import Py.

(** A record of the store. [handle_action] is the only writer of the
    store and builds each record with these keys; [ts] is
    [int(time.time())]. The key ["request"] is never read. *)
Record stored : Type := {
  session_id : value;
  ts : Z;
  action : value;
  plan : value;
  response : value
}.

(** [a or b] *)
Definition py_or (a b : value) : value := if truthy a then a else b.

(** [l[:limit]] for an integer [limit]; a negative one counts from the
    end. *)
Definition slice_upto {A} (limit : Z) (l : list A) : list A :=
  if bool_decide (0 ≤ limit) then take (Z.to_nat limit) l
  else take (length l - Z.to_nat (- limit)) l.

(** [d[k] = v] *)
Fixpoint dict_set (k : string) (v : value) (d : dict) : dict :=
  match d with
  | [] => [(k, v)]
  | (k', v') :: d' =>
      if String.eqb k' k then (k', v) :: d' else (k', v') :: dict_set k v d'
  end.

(** [for x in v]: the members of a list, the characters of a string, the
    keys of a dictionary. *)
Definition iterate (v : value) : res (list value) :=
  match v with
  | VList l => Ok l
  | VStr s => Ok ((λ c, VStr (String c "")) <$> String.list_ascii_of_string s)
  | VDict d => Ok ((λ kv, VStr kv.1) <$> d)
  | _ => Raise TypeError
  end.

(** [s.split(sep)] for a separator of one character *)
Fixpoint split_on (sep : Ascii.ascii) (s : string) : list string :=
  match s with
  | EmptyString => [EmptyString]
  | String c s' =>
      if Ascii.eqb c sep then EmptyString :: split_on sep s'
      else match split_on sep s' with
           | [] => [String c EmptyString]
           | w :: ws => String c w :: ws
           end
  end.

(** [path.split("/")]: only [str] has [split]. *)
Definition split_path (path : value) : res (list string) :=
  match path with
  | VStr s => Ok (split_on "/"%char s)
  | _ => Raise AttributeError
  end.

(** [min(l)] and [max(l)] of a list with the head [x] *)
Definition list_min (x : Z) (l : list Z) : Z := foldl Z.min x l.
Definition list_max (x : Z) (l : list Z) : Z := foldl Z.max x l.

(** [_get_time_range] *)
Definition _get_time_range (records : list stored) : value :=
  match ts <$> filter (λ r, ts r ≠ 0) records with
  | [] => VNone
  | t :: l =>
      VDict [("earliest", VInt (list_min t l));
             ("latest", VInt (list_max t l));
             ("span_seconds", VInt (list_max t l - list_min t l))]
  end.

(** [_summarize_response] *)
Definition _summarize_response (response : value) : res value :=
  if negb (truthy response) then Ok VNone
  else
    status ← get response "status" VNone;
    json ← get response "json" VNone;
    text ← get response "text" VNone;
    error ← get response "error" VNone;
    let summary :=
      [("status", status);
       ("has_data", VBool (truthy (py_or json text)));
       ("error", error)] in
    if truthy json then
      match json with
      | VList l =>
          Ok (VDict (summary ++ [("data_type", VStr "list");
                                 ("data_count", VInt (Z.of_nat (length l)))]))
      | VDict d =>
          Ok (VDict (summary ++ [("data_type", VStr "object");
                                 ("data_keys", VList (take 5 ((λ kv, VStr kv.1) <$> d)))]))
      | _ => Ok (VDict summary)
      end
    else Ok (VDict summary).

(** The element of [user_actions] built for a record *)
Definition action_data (record : stored) : res value :=
  summary ← _summarize_response (response record);
  Ok (VDict [("timestamp", VInt (ts record));
             ("action", action record);
             ("plan", plan record);
             ("response_summary", summary)]).

(** The record belongs to the session asked for: [format_user_actions]
    skips a record when a session is given and the record has another. *)
Definition of_session (session : value) (r : stored) : Prop :=
  ¬ (truthy session = true ∧ py_eq (session_id r) session = false).

Global Instance of_session_dec session r : Decision (of_session session r).
Proof. unfold of_session. apply _. Defined.

(** The records [format_user_actions] keeps: those of the session when
    one is given, most recent first, the first [limit] of them. *)
Definition recent_records (store : list stored) (session : value) (limit : Z)
    : list stored :=
  slice_upto limit
    (Learning.sorted_desc ts Z.lt
       (filter (of_session session) store)).

(** [format_user_actions]: [store] lists the values of the store in the
    order of [items()]. *)
Definition format_user_actions (store : list stored) (session : value) (limit : Z)
    : res dict :=
  let records := recent_records store session limit in
  user_actions ← mapM action_data records;
  Ok [("session_info",
       VDict [("session_id", session);
              ("record_count", VInt (Z.of_nat (length records)));
              ("time_range", _get_time_range records)]);
      ("user_actions", VList user_actions)].

(** The three lists [extract_business_context] fills *)
Record context : Type := {
  screens_accessed : list value;
  entities_involved : list value;
  recent_operations : list value
}.

(** One iteration of the loop of [extract_business_context] *)
Definition visit (action_data : value) (c : context) : res context :=
  action ← get action_data "action" (VDict []);
  plan ← get action_data "plan" (VDict []);
  a_type ← get action "type" VNone;
  screens ←
    (if py_eq a_type (VStr "open_screen") then
       payload ← get action "payload" (VDict []);
       screen ← get payload "screen" VNone;
       Ok (if truthy screen && negb (Learning.member screen (screens_accessed c))
           then screens_accessed c ++ [screen] else screens_accessed c)
     else Ok (screens_accessed c));
  has_path ← (if truthy plan then path ← get plan "path" VNone; Ok (truthy path)
              else Ok false);
  entities ←
    (if (has_path : bool) then
       path ← getitem plan "path";
       path_parts ← split_path path;
       Ok (if bool_decide (4 < length path_parts)%nat then
             let entity := VStr (List.last path_parts "") in
             if negb (Learning.member entity (entities_involved c))
             then entities_involved c ++ [entity] else entities_involved c
           else entities_involved c)
     else Ok (entities_involved c));
  a_type' ← get action "type" VNone;
  timestamp ← get action_data "timestamp" VNone;
  response_summary ← get action_data "response_summary" (VDict []);
  status ← get response_summary "status" VNone;
  Ok {| screens_accessed := screens;
        entities_involved := entities;
        recent_operations :=
          recent_operations c
          ++ [VDict [("type", a_type'); ("timestamp", timestamp);
                     ("success", VBool (py_eq status (VInt 200)))]] |}.

(** The loop: the first exception ends it. *)
Fixpoint visit_all (l : list value) (c : context) : res context :=
  match l with
  | [] => Ok c
  | action_data :: l' => c' ← visit action_data c; visit_all l' c'
  end.

(** [extract_business_context] *)
Definition extract_business_context (formatted_actions : dict) : res dict :=
  l ← iterate (dict_get formatted_actions "user_actions" (VList []));
  c ← visit_all l {| screens_accessed := []; entities_involved := [];
                     recent_operations := [] |};
  Ok [("screens_accessed", VList (screens_accessed c));
      ("entities_involved", VList (entities_involved c));
      ("recent_operations", VList (recent_operations c));
      ("data_patterns", VList [])].

(** A record as [handle_action] stores it: a rule of
    [plan_historical_get] applied to the action and gave the plan, and
    [exec_get] answered with a dictionary that is not empty. *)
Definition stored_by_handle_action `{Runtime} (r : stored) : Prop :=
  (∃ p, Planning.plan_historical_get (action r) = Ok (Some p) ∧ plan r = VDict p)
  ∧ ∃ kv resp, response r = VDict (kv :: resp).

(** The entity [extract_business_context] reads in the plan of a record:
    the last component of the path *)
Definition entity_of (r : stored) : value :=
  match plan r with
  | VDict p =>
      match dict_get p "path" VNone with
      | VStr s => VStr (List.last (split_on "/"%char s) "")
      | _ => VNone
      end
  | _ => VNone
  end.

(** The operation [extract_business_context] lists for a record *)
Definition operation_of (r : stored) : value :=
  VDict [("type", VStr "open_screen");
         ("timestamp", VInt (ts r));
         ("success",
          VBool (match response r with
                 | VDict resp => py_eq (dict_get resp "status" VNone) (VInt 200)
                 | _ => false
                 end))].

(** Descending order of the time stamp *)
Definition by_ts (a b : stored) : Prop := ts b ≤ ts a.

End DataProcessor.

(** ** [copilot_service.py] *)
Module Copilot.
Import Py Learning DataProcessor.

(** What [parse_suggestion_response] extracts from the answer of the
    model *)
Record parsed : Type := {
  parsed_business_suggestion : value;
  parsed_suggested_action : value;
  raw_response : value
}.

(** The result of [get_suggestion]: the two error dictionaries without
    an LLM answer, the one for a failed LLM call, and the success. *)
Inductive suggestion : Type :=
  | NotInitialized
  | ServiceError
  | LLMError
  | Suggested (answer : parsed) (business_context : dict)
      (learning_guidance : option guidance_result)
      (records_analyzed : nat) (time_range : value).

Section service.
Context `{Runtime}.

(** [generate_suggestion] followed by [parse_suggestion_response]: the
    answer of the model is an input; [None] stands for an answer whose
    [success] is false, and the call may raise. *)
Context (llm : dict → option guidance_result → res (option parsed)).

(** [get_suggestion_guidance] called with an arbitrary object: on
    anything but a dictionary [current_action.get] raises inside the
    [try] block. *)
Definition guidance_for (current_action : value) (business_context : dict) (d : db)
    : guidance_result :=
  match current_action with
  | VDict a => get_suggestion_guidance a business_context d
  | _ => Fallback
  end.

(** [formatted_actions["user_actions"].insert(0, x)] *)
Definition insert_first (x : value) (formatted_actions : dict) : res dict :=
  user_actions ← dict_getitem formatted_actions "user_actions";
  match user_actions with
  | VList l => Ok (dict_set "user_actions" (VList (x :: l)) formatted_actions)
  | _ => Raise AttributeError
  end.

(** [len(v)] *)
Definition len (v : value) : res nat :=
  match v with
  | VList l => Ok (length l)
  | VDict d => Ok (length d)
  | VStr s => Ok (String.length s)
  | _ => Raise TypeError
  end.

(** The [try] block of [get_suggestion]; [now] is [int(time.time())]. *)
Definition get_suggestion_body (d : db) (store : list stored) (now : Z)
    (session : value) (current_action : value) (limit : Z) : res suggestion :=
  formatted_actions ← format_user_actions store session limit;
  formatted_actions ←
    (if truthy current_action then
       insert_first (VDict [("timestamp", VInt now); ("action", current_action);
                            ("plan", VNone); ("response_summary", VNone);
                            ("is_current", VBool true)])
                    formatted_actions
     else Ok formatted_actions);
  business_context ← extract_business_context formatted_actions;
  let formatted_actions :=
    dict_set "business_context" (VDict business_context) formatted_actions in
  let learning_guidance :=
    if truthy current_action
    then Some (guidance_for current_action business_context d) else None in
  llm_response ← llm formatted_actions learning_guidance;
  match llm_response with
  | Some answer =>
      user_actions ← dict_getitem formatted_actions "user_actions";
      records_analyzed ← len user_actions;
      session_info ← dict_getitem formatted_actions "session_info";
      time_range ← getitem session_info "time_range";
      Ok (Suggested answer business_context learning_guidance records_analyzed time_range)
  | None => Ok LLMError
  end.

(** [get_suggestion] *)
Definition get_suggestion (is_initialized : bool) (d : db) (store : list stored)
    (now : Z) (session : value) (current_action : value) (limit : Z) : suggestion :=
  if negb is_initialized then NotInitialized
  else match get_suggestion_body d store now session current_action limit with
       | Ok r => r
       | Raise _ => ServiceError
       end.

End service.
End Copilot.

(** ** Sample records of the store *)
Module HistorySamples.
Import Py DataProcessor Planning Copilot Samples.

Definition open_purchase_order : dict :=
  [("type", VStr "open_screen"); ("payload", VDict [("screen", VStr "PurchaseOrder")])].

Definition sales_order_record : stored :=
  {| session_id := VStr "s1"; ts := 100;
     action := VDict open_sales_order; plan := VDict sales_order_plan;
     response := VDict [("status", VInt 200); ("json", VList [])] |}.

Definition purchase_order_record : stored :=
  {| session_id := VStr "s1"; ts := 200;
     action := VDict open_purchase_order; plan := VDict purchase_order_plan;
     response := VDict [("error", VStr "timeout")] |}.

Definition sample_store : list stored := [sales_order_record; purchase_order_record].

(** An element of [user_actions] as [get_suggestion] builds it for the
    current action *)
Definition current_action_data : dict :=
  [("timestamp", VInt 300); ("action", VDict open_sales_order); ("plan", VNone);
   ("response_summary", VNone); ("is_current", VBool true)].

(** A model whose answer has [success] false *)
Definition silent_llm (formatted_actions : dict)
    (learning_guidance : option Learning.guidance_result) : res (option parsed) :=
  Ok None.

End HistorySamples.

(** * Properties of the approval state machine *)
Module PendingActionsSpec.
Import Py PendingActions Samples.

Implicit Types (m : gmap string pending_data) (a : pending_data) (id : string).

Lemma cleanup_swept (now : Z) m : swept now (_cleanup_expired now m).
Proof.
  intros id a Hl. unfold _cleanup_expired in Hl.
  apply map_lookup_filter_Some in Hl as [_ Hkeep]. exact Hkeep.
Qed.

Lemma dom_insert_present id a a' m :
  m !! id = Some a → dom (<[id := a']> m) = dom m.
Proof.
  intros Hl. rewrite dom_insert_L. apply set_eq. intros k.
  rewrite elem_of_union, elem_of_singleton. split; [|by right].
  intros [-> | Hk]; [|done]. by eapply elem_of_dom_2.
Qed.

(** C1. [confirm_action] returns the action exactly when the id is in
    the store, its status is pending and the clock is not past
    [expires_at]; it then stores the action as confirmed with
    [confirmed_at] stamped. On a pending action whose [expires_at] has
    passed it returns [None] and stores the action as expired. *)
Theorem confirm_action_succeeds_iff (now1 now2 : Z) id m :
  let r := confirm_action now1 now2 id m in
  (is_Some r.1 ↔ ∃ a, m !! id = Some a ∧ status a = Pending ∧ now1 ≤ expires_at a)
  ∧ (∀ a, m !! id = Some a → status a = Pending → now1 ≤ expires_at a →
       let a' := set_confirmed_at now2 (set_status Confirmed a) in
       r = (Some a', <[id := a']> m)
       ∧ status a' = Confirmed ∧ confirmed_at a' = Some now2)
  ∧ (∀ a, m !! id = Some a → status a = Pending → expires_at a < now1 →
       r = (None, <[id := set_status Expired a]> m)
       ∧ r.2 !! id = Some (set_status Expired a)
       ∧ status (set_status Expired a) = Expired).
Proof.
  unfold confirm_action. split_and!.
  - destruct (m !! id) as [a|] eqn:Hl; simpl.
    + destruct (decide (status a = Pending)) as [Hp|Hp].
      * rewrite (bool_decide_eq_true_2 _ Hp). simpl.
        destruct (decide (expires_at a < now1)) as [Hlt|Hge].
        -- rewrite (bool_decide_eq_true_2 _ Hlt). simpl. split.
           ++ intros [? ?]; discriminate.
           ++ intros (a0 & [= <-] & _ & Hle). lia.
        -- rewrite (bool_decide_eq_false_2 _ Hge). simpl. split; [|by eauto].
           intros _. exists a. split_and!; [done|done|lia].
      * rewrite (bool_decide_eq_false_2 _ Hp). simpl. split.
        -- intros [? ?]; discriminate.
        -- intros (a0 & [= <-] & Hp' & _). done.
    + split; [intros [? ?]; discriminate|]. intros (a0 & ? & _). discriminate.
  - intros a Hl Hp Hle. rewrite Hl, (bool_decide_eq_true_2 _ Hp). simpl.
    rewrite bool_decide_eq_false_2 by lia. done.
  - intros a Hl Hp Hlt. rewrite Hl, (bool_decide_eq_true_2 _ Hp). simpl.
    rewrite (bool_decide_eq_true_2 _ Hlt). simpl.
    split_and!; [done| by rewrite lookup_insert_eq |done].
Qed.

Lemma confirm_action_succeeds_iff_witness :
  confirm_action 10 11 "p1" {[ "p1" := pending_sample ]}
  = (Some (set_confirmed_at 11 (set_status Confirmed pending_sample)),
     <[ "p1" := set_confirmed_at 11 (set_status Confirmed pending_sample) ]>
       {[ "p1" := pending_sample ]}).
Proof.
  destruct (confirm_action_succeeds_iff 10 11 "p1" {[ "p1" := pending_sample ]})
    as (_ & Hok & _).
  apply (Hok pending_sample); [reflexivity | reflexivity | vm_compute; discriminate].
Defined.

(** C3, as the claim states it: no reading of the value returned by a
    failed [confirm_action] tells the three causes apart, since an
    unknown id and a rejected action both give [None]. *)
Lemma failed_confirm_cause_not_identified :
  ¬ ∃ decode : option pending_data → failure,
      ∀ (now1 now2 : Z) id m c,
        confirm_failure now1 id m = Some c →
        decode (confirm_action now1 now2 id m).1 = c.
Proof.
  intros [decode Hdec].
  pose proof (Hdec 0 0 "p1" ∅ NotFound eq_refl) as H1.
  pose proof (Hdec 0 0 "p1" {[ "p1" := set_status Rejected pending_sample ]}
                AlreadyProcessed eq_refl) as H2.
  vm_compute in H1, H2. congruence.
Qed.

(** C3, amended. A failed [confirm_action] or [reject_action] returns
    [None] whatever the cause. For an unknown id and for an action that
    is not pending the store is left as it is. After a rejection, every
    further [reject_action] on the id returns [None] and leaves the
    store, hence the status and [rejected_at] of the action, as they
    are. *)
Theorem failed_confirm_reject_return_none (now1 now2 now : Z) id m :
  (∀ c, confirm_failure now1 id m = Some c → (confirm_action now1 now2 id m).1 = None)
  ∧ (m !! id = None ∨ (∃ a, m !! id = Some a ∧ status a ≠ Pending) →
       confirm_action now1 now2 id m = (None, m) ∧ reject_action now id m = (None, m))
  ∧ (∀ a, m !! id = Some a → status a = Pending →
       let a' := set_rejected_at now (set_status Rejected a) in
       let m' := (reject_action now id m).2 in
       reject_action now id m = (Some a', <[id := a']> m)
       ∧ ∀ now', reject_action now' id m' = (None, m') ∧ m' !! id = Some a').
Proof.
  split_and!.
  - intros c. unfold confirm_failure, confirm_action.
    destruct (m !! id) as [a|]; [|done].
    destruct (bool_decide (status a = Pending)); simpl; [|done].
    destruct (bool_decide (expires_at a < now1)); simpl; done.
  - unfold confirm_action, reject_action. intros [Hn | (a & Hl & Hp)].
    + by rewrite Hn.
    + rewrite Hl. by rewrite (bool_decide_eq_false_2 _ Hp).
  - intros a Hl Hp a' m'.
    assert (Hfirst : reject_action now id m = (Some a', <[id := a']> m)).
    { unfold reject_action. rewrite Hl. by rewrite (bool_decide_eq_true_2 _ Hp). }
    subst m'. rewrite Hfirst. simpl. split; [done|].
    intros now'. unfold reject_action. rewrite lookup_insert_eq. done.
Qed.

Lemma failed_confirm_reject_return_none_witness :
  reject_action 6 "p1" (reject_action 5 "p1" {[ "p1" := pending_sample ]}).2
  = (None, (reject_action 5 "p1" {[ "p1" := pending_sample ]}).2)
  ∧ (reject_action 5 "p1" {[ "p1" := pending_sample ]}).2 !! "p1"
    = Some (set_rejected_at 5 (set_status Rejected pending_sample)).
Proof.
  destruct (failed_confirm_reject_return_none 0 0 5 "p1" {[ "p1" := pending_sample ]})
    as (_ & _ & Hsecond).
  apply (Hsecond pending_sample); reflexivity.
Defined.

(** C5. For an id of the store, whatever the status of the action,
    [mark_executed] stores and returns it with status executed and with
    [executed_at] and [execution_result] set. *)
Theorem mark_executed_from_any_status (now : Z) id (result : value) m a :
  m !! id = Some a →
  let a' := set_executed now result (set_status Executed a) in
  mark_executed now id result m = (Some a', <[id := a']> m)
  ∧ status a' = Executed ∧ executed_at a' = Some now
  ∧ execution_result a' = Some result.
Proof. intros Hl a'. unfold mark_executed. by rewrite Hl. Qed.

Lemma mark_executed_from_any_status_witness :
  let a := set_rejected_at 5 (set_status Rejected pending_sample) in
  let a' := set_executed 9 (VDict [("status", VInt 200)]) (set_status Executed a) in
  mark_executed 9 "p1" (VDict [("status", VInt 200)]) {[ "p1" := a ]}
  = (Some a', <[ "p1" := a' ]> {[ "p1" := a ]})
  ∧ status a' = Executed ∧ executed_at a' = Some 9
  ∧ execution_result a' = Some (VDict [("status", VInt 200)]).
Proof.
  intros a a'.
  apply (mark_executed_from_any_status 9 "p1" (VDict [("status", VInt 200)])
           {[ "p1" := a ]} a).
  reflexivity.
Defined.

(** C8, as the claim states it: a proposal created at time 0 is still
    in the store after [confirm_action], [reject_action] or
    [mark_executed] is called more than 24 hours after its
    [expires_at]. *)
Lemma confirm_reject_execute_do_not_sweep :
  let created := create_pending_action 1700000000 "9f1c2ab37d" 0 0 0
                   (VStr "s1") (VDict []) (VDict []) (VStr "") ∅ in
  let late := minutes 30 + hours 24 + 1 in
  ¬ swept late (confirm_action late late created.1 created.2).2
  ∧ ¬ swept late (reject_action late created.1 created.2).2
  ∧ ¬ swept late (mark_executed late created.1 VNone created.2).2.
Proof.
  intros created late.
  split_and!; intros Hs.
  - eapply (Hs created.1); [vm_compute; reflexivity | vm_compute; reflexivity].
  - eapply (Hs created.1); [vm_compute; reflexivity | vm_compute; reflexivity].
  - eapply (Hs created.1); [vm_compute; reflexivity | vm_compute; reflexivity].
Qed.

(** C8, amended. The sweep runs in [create_pending_action], after the
    insertion, and in [get_pending_action], [get_pending_for_session]
    and [get_status_summary]: the store they leave holds no action whose
    [expires_at] is more than 24 hours before the clock the sweep read.
    [confirm_action], [reject_action] and [mark_executed] do not run it
    and keep every id of the store. *)
Theorem retention_sweep_where_it_runs (epoch : Z) (uuid_hex : string)
    (now1 now2 now3 now : Z) (session original suggested llm result : value) id m :
  swept now3 (create_pending_action epoch uuid_hex now1 now2 now3
                session original suggested llm m).2
  ∧ swept now (get_pending_action now id m).2
  ∧ swept now (get_pending_for_session now session m).2
  ∧ swept now (get_status_summary now m).2
  ∧ dom (confirm_action now1 now2 id m).2 = dom m
  ∧ dom (reject_action now id m).2 = dom m
  ∧ dom (mark_executed now id result m).2 = dom m.
Proof.
  split_and!; try apply cleanup_swept.
  - unfold confirm_action. destruct (m !! id) as [a|] eqn:Hl; [|done].
    repeat case_match; simpl; try done; by eapply dom_insert_present.
  - unfold reject_action. destruct (m !! id) as [a|] eqn:Hl; [|done].
    case_match; simpl; try done; by eapply dom_insert_present.
  - unfold mark_executed. destruct (m !! id) as [a|] eqn:Hl; [|done].
    simpl. by eapply dom_insert_present.
Qed.

End PendingActionsSpec.

(** * Properties of the feedback ledger *)
Module LearningSpec.
Import Py Learning.

(** Unfolds the monad of [update_pattern]. *)
Ltac unfold_upd :=
  cbv [update_pattern mbind upd_bind modify attempt lift mret upd_ret].

Lemma bind_Ok {A B} (m : res A) (f : A → res B) b :
  m ≫= f = Ok b → ∃ a, m = Ok a ∧ f a = Ok b.
Proof. destruct m as [a|]; simpl; [eauto|done]. Qed.

(** Splits a hypothesis [x ← m; ... = Ok b] into its successful steps. *)
Ltac inv_bind H :=
  repeat (let x := fresh "x" in
          let Hx := fresh "Hx" in
          apply bind_Ok in H as (x & Hx & H)).

(** Replays in the goal the steps that succeeded in the context. *)
Ltac replay_steps :=
  repeat match goal with
         | Hs : ?m = Ok _ |- context [?m] => rewrite Hs; simpl
         end.

Lemma length_last_n {A} n (l : list A) : (length (last_n n l) ≤ n)%nat.
Proof. unfold last_n. rewrite length_drop. lia. Qed.

Lemma last_n_snoc_short {A} n (l : list A) x :
  (length l < n)%nat → last_n n (l ++ [x]) = l ++ [x].
Proof.
  intros Hl. unfold last_n. rewrite length_app. simpl.
  replace (length l + 1 - n)%nat with 0%nat by lia. done.
Qed.

Lemma last_n_snoc_full {A} n (l : list A) x :
  length l = n → (0 < n)%nat → last_n n (l ++ [x]) = drop 1 l ++ [x].
Proof.
  intros Hl Hn. unfold last_n. rewrite length_app. simpl.
  replace (length l + 1 - n)%nat with 1%nat by lia.
  rewrite drop_app_le by lia. done.
Qed.

Lemma increment_key_lists k p p' :
  increment_key k p = Ok p' →
  successful_suggestions p' = successful_suggestions p
  ∧ failed_suggestions p' = failed_suggestions p.
Proof.
  unfold increment_key. intros Hk.
  destruct k; try discriminate.
  repeat case_match; simplify_eq; done.
Qed.

Lemma track_reason_lists k p p' :
  track_reason k p = Ok p' →
  successful_suggestions p' = successful_suggestions p
  ∧ failed_suggestions p' = failed_suggestions p.
Proof. unfold track_reason. case_match; intros; simplify_eq; done. Qed.

Section spec.
Context `{Runtime}.

(** The rolling lists after [update_pattern], whether it completes or
    raises. *)
Lemma update_pattern_lists e now p :
  let p' := (update_pattern e now p).1 in
  (successful_suggestions p' = successful_suggestions p
   ∨ ∃ s, successful_suggestions p' = last_n 10 (successful_suggestions p ++ [s]))
  ∧ (failed_suggestions p' = failed_suggestions p
     ∨ ∃ s, failed_suggestions p' = last_n 10 (failed_suggestions p ++ [s])).
Proof.
  unfold_upd.
  destruct (increment_key _ _) as [p1|] eqn:Hk; simpl; [|by auto].
  apply increment_key_lists in Hk as [Hs1 Hf1]. simpl in Hs1, Hf1.
  destruct (truediv _ _) as [r|]; simpl; [|rewrite Hs1, Hf1; by auto].
  destruct (py_eq (user_action e) (VStr "rejected") && truthy (feedback_reason e)).
  - destruct (track_reason _ _) as [p2|] eqn:Ht; simpl;
      [|rewrite Hs1, Hf1; by auto].
    apply track_reason_lists in Ht as [Hs2 Hf2]. simpl in Hs2, Hf2.
    destruct (suggestion_summary e) as [s|]; simpl;
      [|rewrite Hs2, Hf2, Hs1, Hf1; by auto].
    repeat case_match; simpl; rewrite ?Hs2, ?Hf2, ?Hs1, ?Hf1; eauto.
  - simpl. destruct (suggestion_summary e) as [s|]; simpl;
      [|rewrite Hs1, Hf1; by auto].
    repeat case_match; simpl; rewrite ?Hs1, ?Hf1; eauto.
Qed.

Lemma update_pattern_bounded e now p :
  bounded p → bounded (update_pattern e now p).1.
Proof.
  intros [Hs Hf]. destruct (update_pattern_lists e now p) as [Hs' Hf'].
  split.
  - destruct Hs' as [-> | [s ->]]; [done | apply length_last_n].
  - destruct Hf' as [-> | [s ->]]; [done | apply length_last_n].
Qed.

Lemma new_pattern_bounded stamp : bounded (new_pattern stamp).
Proof. split; simpl; lia. Qed.

Lemma _update_patterns_bounded e now1 now2 (pats : gmap string pattern) :
  map_Forall (λ _, bounded) pats →
  map_Forall (λ _, bounded) (_update_patterns e now1 now2 pats).1.
Proof.
  intros Hb. unfold _update_patterns.
  destruct (entry_pattern_key e) as [key|]; [|done].
  destruct (update_pattern e now2 _) as [p r] eqn:Hu. simpl.
  apply map_Forall_insert_2; [|done].
  change p with (p, r).1. rewrite <- Hu. apply update_pattern_bounded.
  destruct (pats !! key) as [p0|] eqn:Hl; simpl.
  - by apply (Hb key).
  - apply new_pattern_bounded.
Qed.

Lemma apply_call_bounded c d :
  map_Forall (λ _, bounded) (patterns d) →
  map_Forall (λ _, bounded) (patterns (apply_call c d).2).
Proof.
  intros Hb. unfold apply_call, record_feedback.
  destruct (LearningEntry_init _ _ _ _ _ _) as [e|]; [|done].
  pose proof (_update_patterns_bounded e (call_now1 c) (call_now2 c) _ Hb) as Hb'.
  destruct (_update_patterns _ _ _ _) as [pats r]. by destruct r.
Qed.

Lemma run_bounded cs d :
  map_Forall (λ _, bounded) (patterns d) →
  map_Forall (λ _, bounded) (patterns (run cs d)).
Proof.
  revert d. induction cs as [|c cs IH]; intros d Hb; [done|].
  simpl. apply IH. by apply apply_call_bounded.
Qed.


(** What the constructor stores *)
Lemma init_fields uuid now ctx ua reason result e :
  LearningEntry_init uuid now ctx ua reason result = Ok e →
  id e = VStr uuid ∧ timestamp e = now ∧ suggestion_context e = ctx
  ∧ user_action e = ua ∧ feedback_reason e = reason ∧ execution_result e = result.
Proof.
  unfold LearningEntry_init. intros Hi.
  destruct (_generate_context_hash ctx); simpl in Hi; [|done].
  destruct (_extract_pattern_features ctx now); simpl in Hi; [|done].
  by simplify_eq.
Qed.

(** A call that returns an identifier went through every statement. *)
Lemma apply_call_Some c d i d' :
  apply_call c d = (Some i, d') →
  ∃ e key p',
    LearningEntry_init (call_uuid c) (call_now0 c) (VDict (call_context c))
      (VStr (call_user_action c)) (of_option (call_reason c))
      (of_option_dict (call_result c)) = Ok e
    ∧ entry_pattern_key e = Ok key
    ∧ update_pattern e (call_now2 c)
        (default (new_pattern (isoformat (call_now1 c))) (patterns d !! key))
      = (p', Ok ())
    ∧ i = id e
    ∧ d' = {| entries := entries d ++ [e]; patterns := <[key := p']> (patterns d) |}.
Proof.
  unfold apply_call, record_feedback. intros Hc.
  destruct (LearningEntry_init _ _ _ _ _ _) as [e|] eqn:Hi; [|done].
  unfold _update_patterns in Hc.
  destruct (entry_pattern_key e) as [key|] eqn:Hk; [|done].
  destruct (update_pattern e _ _) as [p' r] eqn:Hu.
  destruct r as [[]|]; [|done]. simplify_eq. by exists e, key, p'.
Qed.

Lemma update_pattern_accepted e now p p' :
  user_action e = VStr "accepted" →
  update_pattern e now p = (p', Ok ()) →
  ∃ s, suggestion_summary e = Ok s
    ∧ successful_suggestions p' = last_n 10 (successful_suggestions p ++ [s])
    ∧ failed_suggestions p' = failed_suggestions p.
Proof.
  intros Hua. unfold_upd. rewrite Hua.
  change (increment_key (VStr "accepted") ?q)
    with (Ok (A:=pattern) (set_accepted (accepted q + 1) q)).
  change (py_eq (VStr "accepted") (VStr "rejected")) with false.
  change (py_eq (VStr "accepted") (VStr "accepted")) with true. simpl.
  destruct (truediv _ _) as [r|]; simpl; [|done].
  destruct (suggestion_summary e) as [s|]; simpl; [|done].
  intros [= <-]. by exists s.
Qed.

Lemma update_pattern_rejected e now p p' :
  user_action e = VStr "rejected" →
  update_pattern e now p = (p', Ok ()) →
  ∃ s, suggestion_summary e = Ok s
    ∧ failed_suggestions p'
      = last_n 10 (failed_suggestions p ++ [with_reason (feedback_reason e) s])
    ∧ successful_suggestions p' = successful_suggestions p.
Proof.
  intros Hua. unfold_upd. rewrite Hua.
  change (increment_key (VStr "rejected") ?q)
    with (Ok (A:=pattern) (set_rejected (rejected q + 1) q)).
  change (py_eq (VStr "rejected") (VStr "rejected")) with true.
  change (py_eq (VStr "rejected") (VStr "accepted")) with false. simpl.
  destruct (truediv _ _) as [r|]; simpl; [|done].
  destruct (truthy (feedback_reason e)); simpl.
  - destruct (track_reason _ _) as [p2|] eqn:Ht; simpl; [|done].
    apply track_reason_lists in Ht as [Hs2 Hf2]. simpl in Hs2, Hf2.
    destruct (suggestion_summary e) as [s|]; simpl; [|done].
    intros [= <-]. exists s. simpl. by rewrite Hs2, Hf2.
  - destruct (suggestion_summary e) as [s|]; simpl; [|done].
    intros [= <-]. by exists s.
Qed.

Lemma update_pattern_other e now p p' ua :
  user_action e = VStr ua → ua ≠ "accepted" → ua ≠ "rejected" →
  update_pattern e now p = (p', Ok ()) →
  successful_suggestions p' = successful_suggestions p
  ∧ failed_suggestions p' = failed_suggestions p.
Proof.
  intros Hua Ha Hr. unfold_upd. rewrite Hua.
  assert (Hea : py_eq (VStr ua) (VStr "accepted") = false).
  { simpl. by apply String.eqb_neq. }
  assert (Her : py_eq (VStr ua) (VStr "rejected") = false).
  { simpl. by apply String.eqb_neq. }
  rewrite Hea, Her.
  destruct (increment_key _ _) as [p1|] eqn:Hk; [|done].
  apply increment_key_lists in Hk as [Hs1 Hf1]. simpl in Hs1, Hf1.
  destruct (truediv _ _) as [r|]; simpl; [|done].
  destruct (suggestion_summary e) as [s|]; simpl; [|done].
  intros [= <-]. simpl. done.
Qed.

Lemma evict_oldest {A} (l : list A) x :
  (length l ≤ 10)%nat →
  last_n 10 (l ++ [x])
  = (if decide (length l = 10%nat) then drop 1 l else l) ++ [x].
Proof.
  intros Hl. case_decide.
  - by apply last_n_snoc_full; [|lia].
  - apply last_n_snoc_short. lia.
Qed.

(** C6. After any sequence of [record_feedback] calls on the empty
    database, both rolling lists of every pattern hold at most ten
    summaries. A call that returns an identifier appends its summary to
    the list of its action, first dropping the head of the list, its
    oldest summary, when the list already holds ten; the rest keeps its
    order and the other list is unchanged. *)
Theorem rolling_lists_bounded_fifo :
  (∀ cs k p, patterns (run cs empty_db) !! k = Some p → bounded p)
  ∧ (∀ cs c i d',
       apply_call c (run cs empty_db) = (Some i, d') →
       ∃ key s p',
         let p0 := default (new_pattern (isoformat (call_now1 c)))
                     (patterns (run cs empty_db) !! key) in
         let keep (l : list summary) :=
           if decide (length l = 10%nat) then drop 1 l else l in
         patterns d' = <[key := p']> (patterns (run cs empty_db))
         ∧ summary_timestamp s = isoformat (call_now0 c)
         ∧ (call_user_action c = "accepted" →
              successful_suggestions p' = keep (successful_suggestions p0) ++ [s]
              ∧ failed_suggestions p' = failed_suggestions p0)
         ∧ (call_user_action c = "rejected" →
              failed_suggestions p'
              = keep (failed_suggestions p0) ++ [with_reason (of_option (call_reason c)) s]
              ∧ successful_suggestions p' = successful_suggestions p0)
         ∧ (call_user_action c ≠ "accepted" → call_user_action c ≠ "rejected" →
              successful_suggestions p' = successful_suggestions p0
              ∧ failed_suggestions p' = failed_suggestions p0)).
Proof.
  assert (Hall : ∀ cs, map_Forall (λ _, bounded) (patterns (run cs empty_db))).
  { intros cs. apply run_bounded. simpl. apply map_Forall_empty. }
  split; [intros cs k p; apply Hall|].
  intros cs c i d' Hc. specialize (Hall cs).
  apply apply_call_Some in Hc as (e & key & p' & Hi & Hk & Hu & -> & ->).
  apply init_fields in Hi as (_ & Hts & Hctx & Hua & Hfr & _).
  set (p0 := default _ _) in *.
  assert (Hb0 : bounded p0).
  { subst p0. destruct (patterns (run cs empty_db) !! key) as [q|] eqn:Hl; simpl.
    - by apply (Hall key).
    - apply new_pattern_bounded. }
  destruct Hb0 as [Hs0 Hf0].
  assert (Hsum : ∃ s, suggestion_summary e = Ok s).
  { revert Hu. unfold_upd.
    destruct (increment_key _ _); simpl; [|done].
    destruct (truediv _ _); simpl; [|done].
    destruct (py_eq _ _ && truthy _); simpl.
    - destruct (track_reason _ _); simpl; [|done].
      destruct (suggestion_summary e); simpl; [eauto|done].
    - destruct (suggestion_summary e); simpl; [eauto|done]. }
  destruct Hsum as [s Hsum].
  exists key, s, p'. simpl. split_and!.
  - done.
  - unfold suggestion_summary in Hsum. inv_bind Hsum. simplify_eq. simpl.
    by rewrite Hts.
  - intros Ha. rewrite Ha in Hua.
    destruct (update_pattern_accepted _ _ _ _ Hua Hu) as (s' & Hs' & Hsucc & Hfail).
    rewrite Hsum in Hs'. simplify_eq. rewrite Hsucc, Hfail.
    by rewrite evict_oldest.
  - intros Hr. rewrite Hr in Hua.
    destruct (update_pattern_rejected _ _ _ _ Hua Hu) as (s' & Hs' & Hfail & Hsucc).
    rewrite Hsum in Hs'. simplify_eq. rewrite Hsucc, Hfail, Hfr.
    by rewrite evict_oldest.
  - intros Ha Hr. by apply (update_pattern_other _ _ _ _ _ Hua Ha Hr Hu).
Qed.


(** Whether the constructor accepts a context does not depend on the
    other arguments. *)
Lemma init_accepts uuid now ctx ua reason result e uuid' now' ua' reason' result' :
  LearningEntry_init uuid now ctx ua reason result = Ok e →
  ∃ e', LearningEntry_init uuid' now' ctx ua' reason' result' = Ok e'.
Proof.
  unfold LearningEntry_init. intros Hi. inv_bind Hi.
  rewrite Hx. simpl.
  unfold _extract_pattern_features in *. inv_bind Hx0.
  unfold _analyze_session_pattern in *.
  repeat match goal with
         | Hs : _ ≫= _ = Ok _ |- _ => inv_bind Hs
         end.
  replay_steps. eauto.
Qed.

Lemma from_dict_context uuid now data e :
  from_dict uuid now data = Ok e →
  ∃ ua reason result e0,
    LearningEntry_init uuid now (suggestion_context e) ua reason result = Ok e0.
Proof.
  unfold from_dict. intros Hf. inv_bind Hf. simplify_eq. simpl.
  apply init_fields in Hx1 as Hfields. destruct Hfields as (_ & _ & -> & _).
  eauto.
Qed.

Lemma constructed_context e :
  constructed e →
  ∃ uuid now ua reason result e0,
    LearningEntry_init uuid now (suggestion_context e) ua reason result = Ok e0.
Proof.
  intros [uuid now ctx ua reason result e' Hi | uuid now data e' Hf].
  - apply init_fields in Hi as Hfields. destruct Hfields as (_ & _ & -> & _). eauto 10.
  - apply from_dict_context in Hf as (ua & reason & result & e0 & Hi). eauto 10.
Qed.

(** C9. For every [LearningEntry] object [e], [from_dict(e.to_dict())]
    returns an entry equal to [e] on all eight attributes; the stored
    [context_hash] and [pattern_features] are taken from the dictionary,
    whatever the constructor computed. *)
Theorem from_dict_to_dict e uuid now :
  constructed e → from_dict uuid now (to_dict e) = Ok e.
Proof.
  intros Hc. apply constructed_context in Hc as (u & t & ua & r & x & e0 & Hi).
  destruct (init_accepts _ _ _ _ _ _ _ uuid now (user_action e)
              (feedback_reason e) (execution_result e) Hi) as [e1 Hi1].
  apply init_fields in Hi1 as Hfields.
  destruct Hfields as (_ & _ & Hctx & Hua & Hfr & Her).
  unfold from_dict.
  change (dict_getitem (to_dict e) "suggestion_context") with (Ok (suggestion_context e)).
  change (dict_getitem (to_dict e) "user_action") with (Ok (user_action e)).
  change (dict_get (to_dict e) "feedback_reason" VNone) with (feedback_reason e).
  change (dict_get (to_dict e) "execution_result" VNone) with (execution_result e).
  change (dict_getitem (to_dict e) "id") with (Ok (id e)).
  change (dict_getitem (to_dict e) "timestamp") with (Ok (VStr (isoformat (timestamp e)))).
  change (dict_getitem (to_dict e) "context_hash") with (Ok (context_hash e)).
  change (dict_getitem (to_dict e) "pattern_features") with (Ok (pattern_features e)).
  simpl. rewrite Hi1. simpl. rewrite fromisoformat_isoformat. simpl.
  rewrite Hctx, Hua, Hfr, Her. by destruct e.
Qed.


Lemma track_reason_counters k p p' : track_reason k p = Ok p' → same_counters p p'.
Proof. unfold track_reason. case_match; intros; simplify_eq; done. Qed.

Lemma update_pattern_valid e now p ua :
  user_action e = VStr ua → valid_action ua → 0 ≤ total_suggestions p →
  stored_ok (update_pattern e now p).1.
Proof.
  intros Hua Hv Hp. unfold_upd. rewrite Hua.
  assert (∃ p1, increment_key (VStr ua) (set_total (total_suggestions p + 1) p) = Ok p1
                ∧ total_suggestions p1 = total_suggestions p + 1) as (p1 & -> & Ht1).
  { unfold valid_action in Hv. rewrite !elem_of_cons in Hv.
    destruct Hv as [-> | [-> | [-> | Hnil]]]; [eauto..|]. by apply elem_of_nil in Hnil. }
  unfold truediv at 1. rewrite Ht1.
  destruct (Z.eqb_spec (total_suggestions p + 1) 0) as [?|Hne]; [lia|].
  set (r := (Qc_of_Z (accepted p1) / Qc_of_Z (total_suggestions p + 1))%Qc).
  set (p3 := set_last_updated _ (set_success_rate r p1)).
  assert (Hok3 : stored_ok p3).
  { split; simpl; [lia|]. unfold rate_consistent, truediv. simpl. rewrite Ht1.
    destruct (Z.eqb_spec (total_suggestions p + 1) 0); [lia|done]. }
  assert (Hkeep : ∀ q, same_counters p3 q → stored_ok q).
  { intros q (Ht & Ha & Hr). destruct Hok3 as [Hpos Hrate].
    split; [lia|]. unfold rate_consistent in *. by rewrite Ht, Ha, Hr. }
  destruct (py_eq (VStr ua) (VStr "rejected") && truthy (feedback_reason e)).
  - destruct (track_reason _ _) as [p4|] eqn:Htr; simpl; [|done].
    apply track_reason_counters in Htr.
    destruct (suggestion_summary e); simpl; [|by apply Hkeep].
    repeat case_match; simpl; apply Hkeep; destruct Htr as (? & ? & ?); done.
  - simpl. destruct (suggestion_summary e); simpl; [|done].
    repeat case_match; simpl; apply Hkeep; done.
Qed.

Lemma apply_call_valid c d :
  valid_action (call_user_action c) →
  map_Forall (λ _, stored_ok) (patterns d) →
  map_Forall (λ _, stored_ok) (patterns (apply_call c d).2).
Proof.
  intros Hv Hd. unfold apply_call, record_feedback.
  destruct (LearningEntry_init _ _ _ _ _ _) as [e|] eqn:Hi; [|done].
  apply init_fields in Hi as (_ & _ & _ & Hua & _).
  unfold _update_patterns.
  destruct (entry_pattern_key e) as [key|]; [|done].
  destruct (update_pattern e _ _) as [p' r] eqn:Hu.
  assert (Hp' : stored_ok p').
  { change p' with (p', r).1. rewrite <- Hu.
    apply (update_pattern_valid _ _ _ _ Hua Hv).
    destruct (patterns d !! key) as [q|] eqn:Hl; simpl; [|done].
    destruct (Hd key q Hl). lia. }
  destruct r; simpl; by apply map_Forall_insert_2.
Qed.

(** As long as every call passes one of the three documented values of
    [user_action], the stored rate is the quotient of the counters. *)
Lemma success_rate_consistent_for_valid_actions cs k p :
  Forall (λ c, valid_action (call_user_action c)) cs →
  patterns (run cs empty_db) !! k = Some p → rate_consistent p.
Proof.
  intros Hcs.
  assert (Hall : ∀ d, map_Forall (λ _, stored_ok) (patterns d) →
                      map_Forall (λ _, stored_ok) (patterns (run cs d))).
  { induction Hcs as [|c cs Hc _ IH]; intros d Hd; [done|].
    simpl. apply IH. by apply apply_call_valid. }
  intros Hl. apply (Hall empty_db (map_Forall_empty _) k p Hl).
Qed.


(** *** Pattern keys *)







(** *** Guidance *)

Lemma py_min_spec a b :
  (py_min a b ≤ a)%Qc ∧ (py_min a b ≤ b)%Qc ∧ (py_min a b = a ∨ py_min a b = b).
Proof.
  unfold py_min. case_bool_decide as Hlt.
  - split_and!; [by apply Qclt_le_weak | apply Qcle_refl | by right].
  - split_and!; [apply Qcle_refl | by apply Qcnot_lt_le | by left].
Qed.

Lemma guidance_body_Ok ca bc d g :
  guidance_body ca bc d = Ok g →
  ∃ key l,
    action_pattern_key ca = Ok key
    ∧ _find_similar_contexts ca bc d = Ok l
    ∧ similar_contexts g = l
    ∧ match patterns d !! key with
      | None =>
          should_suggest g = true ∧ confidence_score g = f0_5
          ∧ suggested_approach g = "standard"
          ∧ avoid_patterns g = [] ∧ preferred_patterns g = []
          ∧ historical_success_rate g = 0%Qc
      | Some p =>
          historical_success_rate g = success_rate p
          ∧ confidence_score g = py_min f0_9 (success_rate p)
          ∧ ((success_rate p < f0_3)%Qc →
               should_suggest g = false ∧ suggested_approach g = "cautious")
          ∧ (¬ (success_rate p < f0_3)%Qc →
               should_suggest g = true ∧ suggested_approach g = "standard")
      end.
Proof.
  unfold guidance_body. intros Hg. inv_bind Hg. simplify_eq.
  exists x, x0. split_and!; [done..|].
  destruct (patterns d !! x) as [p|]; simpl; [|done].
  split_and!; [done|done|..]; intros Hlt.
  - by rewrite (bool_decide_eq_true_2 _ Hlt).
  - by rewrite (bool_decide_eq_false_2 _ Hlt).
Qed.

(** C4, amended. When [get_suggestion_guidance] returns the guidance
    it built: without statistics for the key of the action the result
    holds the defaults; with statistics the historical rate is the
    stored rate, the confidence is the smaller of 0.9 and the rate, and
    a rate below 0.3 gives no suggestion and the cautious approach. The
    call ends in its handler, which returns only
    [should_suggest = True] and [confidence_score = 0.5], exactly when
    the key or the similarity scan raises. *)
Theorem guidance_follows_pattern_stats ca bc d :
  (∀ g, get_suggestion_guidance ca bc d = Guidance g →
     ∃ key, action_pattern_key ca = Ok key
       ∧ match patterns d !! key with
         | None =>
             should_suggest g = true ∧ confidence_score g = f0_5
             ∧ suggested_approach g = "standard"
             ∧ avoid_patterns g = [] ∧ preferred_patterns g = []
             ∧ historical_success_rate g = 0%Qc
         | Some p =>
             historical_success_rate g = success_rate p
             ∧ confidence_score g = py_min f0_9 (success_rate p)
             ∧ (confidence_score g ≤ f0_9)%Qc
             ∧ (confidence_score g ≤ success_rate p)%Qc
             ∧ (confidence_score g = f0_9 ∨ confidence_score g = success_rate p)
             ∧ ((success_rate p < f0_3)%Qc →
                  should_suggest g = false ∧ suggested_approach g = "cautious")
             ∧ (¬ (success_rate p < f0_3)%Qc →
                  should_suggest g = true ∧ suggested_approach g = "standard")
         end)
  ∧ (get_suggestion_guidance ca bc d = Fallback ↔
       is_ok (action_pattern_key ca) && is_ok (_find_similar_contexts ca bc d) = false)
  ∧ (get_suggestion_guidance ca bc d = Fallback →
       result_should_suggest (get_suggestion_guidance ca bc d) = true
       ∧ result_confidence_score (get_suggestion_guidance ca bc d) = f0_5
       ∧ result_get suggested_approach (get_suggestion_guidance ca bc d) = None
       ∧ result_get historical_success_rate (get_suggestion_guidance ca bc d) = None).
Proof.
  split_and!.
  - intros g. unfold get_suggestion_guidance.
    destruct (guidance_body ca bc d) as [g'|] eqn:Hb; [|done]. intros [= ->].
    apply guidance_body_Ok in Hb as (key & l & Hk & _ & _ & Hp).
    exists key. split; [done|].
    destruct (patterns d !! key) as [p|]; [|done].
    destruct Hp as (Hh & Hc & Hlow & Hhigh).
    destruct (py_min_spec f0_9 (success_rate p)) as (? & ? & ?).
    rewrite Hc. by split_and!.
  - unfold get_suggestion_guidance, guidance_body.
    destruct (action_pattern_key ca) as [key|]; simpl; [|done].
    destruct (_find_similar_contexts ca bc d) as [l|]; simpl; done.
  - intros ->. done.
Qed.




(** *** The similarity scan *)






Lemma insert_desc_perm {A K} (key : A → K) (lt : K → K → Prop) `{!RelDecision lt} x l :
  insert_desc key lt x l ≡ₚ x :: l.
Proof.
  induction l as [|y l IH]; simpl; [done|].
  case_bool_decide; [|done]. rewrite IH. apply Permutation_swap.
Qed.

Lemma sorted_desc_perm {A K} (key : A → K) (lt : K → K → Prop) `{!RelDecision lt} l :
  sorted_desc key lt l ≡ₚ l.
Proof.
  induction l as [|x l IH]; simpl; [done|].
  rewrite insert_desc_perm. by rewrite IH.
Qed.





(** The call does not end in its handler when the screen of the
    action and what the scan reads in the recent entries have the
    expected types. *)
Lemma guidance_returned ca bc d cs s1 :
  get (dict_get ca "payload" (VDict [])) "screen" (VStr "") ≫= lower = Ok cs →
  common_screens (VDict bc) = Ok s1 →
  Forall (λ e, is_ok (recorded_screen e) ∧ is_ok (recorded_type e)
               ∧ is_ok (recorded_screens e)
               ∧ is_ok (get (suggestion_context e) "business_suggestion" (VStr "")
                        ≫= slice_to 100))
    (last_n 50 (entries d)) →
  ∃ g, get_suggestion_guidance ca bc d = Guidance g.
Proof.
  intros Hcs Hbc Hall.
  assert (Hscan : ∃ found, scan cs (dict_get ca "type" (VStr "")) (VDict bc)
                             (last_n 50 (entries d)) = Ok found).
  { induction Hall as [|e l (Hs & Ht & Hc & Hb) _ [found IH]]; [by eexists|].
    simpl. rewrite IH. clear IH.
    unfold scan_entry, entry_score, _contexts_similar.
    unfold recorded_screen, recorded_type, recorded_screens, common_screens in *.
    destruct (get (suggestion_context e) "original_action" _) as [a|]; [|done].
    simpl in *.
    destruct (get a "payload" _) as [pl|]; [|done]. simpl in *.
    destruct (get pl "screen" _) as [sc|]; [|done]. simpl in *.
    destruct (lower sc) as [es|]; [|done]. simpl.
    destruct (get a "type" _) as [et|]; [|done]. simpl.
    destruct (get (suggestion_context e) "business_context" _) as [ec|]; [|done].
    simpl in *. rewrite Hbc. simpl.
    destruct (get ec "most_common_screens" _) as [l2|]; [|done]. simpl in *.
    destruct (to_set l2) as [s2|]; [|done]. simpl.
    assert (Hsim : ∃ sim : bool,
               (if nonempty s1 && nonempty s2 then
                  if bool_decide (0 < Z.of_nat (length (set_union s1 s2))) then
                    ratio ← truediv (Z.of_nat (length (set_inter s1 s2)))
                              (Z.of_nat (length (set_union s1 s2)));
                    Ok (bool_decide (f0_3 < ratio)%Qc)
                  else Ok false
                else Ok false) = Ok sim).
    { destruct (nonempty s1 && nonempty s2); [|by eexists].
      case_bool_decide as Hpos; [|by eexists].
      unfold truediv. destruct (Z.eqb_spec (Z.of_nat (length (set_union s1 s2))) 0);
        [lia|]. by eexists. }
    destruct Hsim as [sim ->]. simpl.
    case_bool_decide; [|by eexists].
    destruct (get (suggestion_context e) "business_suggestion" _ ≫= slice_to 100)
      as [bs|] eqn:Hbs; [|done].
    apply bind_Ok in Hbs as (b0 & -> & Hbs). simpl. rewrite Hbs. simpl.
    by eexists. }
  destruct Hscan as [found Hscan].
  unfold get_suggestion_guidance, guidance_body, action_pattern_key,
    _find_similar_contexts.
  apply bind_Ok in Hcs as (sc & Hsc & Hlow).
  destruct (dict_get ca "payload" (VDict [])) as [| | | | |pl]; try done.
  simpl in *. injection Hsc as <-. rewrite Hlow. simpl. rewrite Hscan. simpl.
  by eexists.
Qed.

End spec.

(** C2, at the failing input. After an accepted feedback and a
    feedback whose [user_action] is ["dismissed"] for the same pattern,
    the second call returns [None], the pattern counts 2 suggestions and
    1 acceptance, and its stored rate is still 1, not 1/2. *)
Theorem success_rate_stale_after_unknown_action `{Runtime} :
  let first := record_feedback "u1" 1 2 3 "a1" Samples.sales_order_context
                 "accepted" None None empty_db in
  let second := record_feedback "u2" 4 5 6 "a1" Samples.sales_order_context
                  "dismissed" None None first.2 in
  second.1 = None
  ∧ ∃ p, patterns second.2 !! "open_screen_SalesOrder" = Some p
       ∧ accepted p = 1 ∧ total_suggestions p = 2
       ∧ success_rate p = Q2Qc 1
       ∧ truediv (accepted p) (total_suggestions p) = Ok (Q2Qc (1 # 2))
       ∧ ¬ rate_consistent p.
Proof.
  intros first second.
  split; [vm_compute; reflexivity|].
  eexists. split; [vm_compute; reflexivity|].
  split_and!.
  - reflexivity.
  - reflexivity.
  - reflexivity.
  - reflexivity.
  - unfold rate_consistent, truediv. simpl. intros [=].
Qed.

Import Samples.

Lemma rolling_lists_bounded_fifo_witness :
  ∃ key p',
    patterns (apply_call accept_call (run [accept_call] empty_db)).2
    = <[key := p']> (patterns (run [accept_call] empty_db)).
Proof.
  destruct (proj2 rolling_lists_bounded_fifo [accept_call] accept_call (VStr "u1")
              (apply_call accept_call (run [accept_call] empty_db)).2)
    as (key & s & p' & Hp & _).
  - vm_compute. reflexivity.
  - exists key, p'. exact Hp.
Defined.

Lemma from_dict_to_dict_witness :
  ∃ e, LearningEntry_init "u1" 7 (VDict sales_order_context) (VStr "accepted")
         VNone VNone = Ok e
       ∧ from_dict "u2" 9 (to_dict e) = Ok e.
Proof.
  eexists. split; [vm_compute; reflexivity|].
  apply from_dict_to_dict.
  apply (constructed_init "u1" 7 (VDict sales_order_context) (VStr "accepted")
           VNone VNone).
  vm_compute. reflexivity.
Defined.

(** C4, as the claim states it: the pattern ["open_screen_None"] has a
    rate of 0, and for an action whose screen is [None], which has that
    key, the result says to suggest and has neither an approach nor a
    historical rate. *)
Lemma guidance_fallback_overrides_low_rate :
  let d := (apply_call reject_no_screen_call empty_db).2 in
  let r := get_suggestion_guidance open_null_screen [] d in
  action_pattern_key open_null_screen = Ok "open_screen_None"
  ∧ (∃ p, patterns d !! "open_screen_None" = Some p ∧ (success_rate p < f0_3)%Qc)
  ∧ result_should_suggest r = true
  ∧ result_get suggested_approach r = None
  ∧ result_get historical_success_rate r = None.
Proof.
  intros d r. split_and!.
  - vm_compute. reflexivity.
  - eexists. split; vm_compute; reflexivity.
  - vm_compute. reflexivity.
  - vm_compute. reflexivity.
  - vm_compute. reflexivity.
Qed.

Lemma guidance_follows_pattern_stats_witness :
  let d := run [reject_call; reject_call; reject_call; accept_call] empty_db in
  ∃ g, get_suggestion_guidance open_sales_order [] d = Guidance g
       ∧ should_suggest g = false ∧ suggested_approach g = "cautious"
       ∧ historical_success_rate g = Q2Qc (1 # 4).
Proof.
  intros d.
  assert (Hg : ∃ g, get_suggestion_guidance open_sales_order [] d = Guidance g)
    by (eexists; vm_compute; reflexivity).
  destruct Hg as [g Hg]. exists g. split; [exact Hg|].
  destruct (guidance_follows_pattern_stats open_sales_order [] d) as (Hfields & _).
  destruct (Hfields g Hg) as (key & Hkey & Hp).
  assert (Hk : action_pattern_key open_sales_order = Ok "open_screen_SalesOrder")
    by (vm_compute; reflexivity).
  rewrite Hk in Hkey. injection Hkey as <-.
  destruct (patterns d !! "open_screen_SalesOrder") as [p|] eqn:Hl;
    [|vm_compute in Hl; discriminate].
  assert (Hrate : success_rate p = Q2Qc (1 # 4)).
  { vm_compute in Hl. injection Hl as <-. reflexivity. }
  destruct Hp as (Hh & _ & _ & _ & _ & Hlow & _).
  assert (Hlt : (success_rate p < f0_3)%Qc) by (rewrite Hrate; reflexivity).
  destruct (Hlow Hlt) as [Hs Ha].
  split_and!; [exact Hs | exact Ha | by rewrite Hh].
Defined.



End LearningSpec.

(** * Further properties of the approval state machine *)
Module PendingActionsExtra.
Import Py PendingActions PendingOps.
Implicit Types (m : gmap string pending_data) (a : pending_data) (id : string).

Lemma cleanup_lookup (now : Z) m id :
  _cleanup_expired now m !! id
  = a ← m !! id;
    if bool_decide (expires_at a < now - hours 24) then None
    else Some (expire_if_due now a).
Proof.
  unfold _cleanup_expired.
  destruct (m !! id) as [a|] eqn:Hl; simpl.
  - case_bool_decide as Hold.
    + apply map_lookup_filter_None. right. intros a'.
      rewrite lookup_fmap, Hl. simpl. intros [= <-]. simpl.
      unfold expire_if_due. case_match; simpl; lia.
    + apply map_lookup_filter_Some. rewrite lookup_fmap, Hl. simpl.
      split; [done|]. unfold expire_if_due. case_match; simpl; lia.
  - apply map_lookup_filter_None. left. by rewrite lookup_fmap, Hl.
Qed.

Lemma expire_if_due_later (t1 t2 : Z) a :
  t1 ≤ t2 → expire_if_due t2 (expire_if_due t1 a) = expire_if_due t2 a.
Proof.
  intros Ht. unfold expire_if_due at 2.
  destruct (decide (expires_at a < t1)) as [H1|H1];
    destruct (decide (status a = Pending)) as [H2|H2];
    rewrite ?(bool_decide_eq_true_2 _ H1), ?(bool_decide_eq_false_2 _ H1),
      ?(bool_decide_eq_true_2 _ H2), ?(bool_decide_eq_false_2 _ H2); simpl; try done.
  unfold expire_if_due. simpl.
  rewrite (bool_decide_eq_true_2 (expires_at a < t2)) by lia.
  rewrite (bool_decide_eq_true_2 _ H2). simpl. done.
Qed.

(** X1. A retention sweep leaves nothing for an earlier one to do: sweeping
    at [t1] and then at a later [t2] gives the store that the sweep at
    [t2] alone gives. In particular sweeping twice at the same time is
    sweeping once. *)
Theorem cleanup_absorbs_earlier (t1 t2 : Z) m :
  t1 ≤ t2 → _cleanup_expired t2 (_cleanup_expired t1 m) = _cleanup_expired t2 m.
Proof.
  intros Ht. apply map_eq. intros id. rewrite !cleanup_lookup.
  destruct (m !! id) as [a|]; simpl; [|done].
  assert (He : ∀ t, expires_at (expire_if_due t a) = expires_at a).
  { intros t. unfold expire_if_due. by case_match. }
  case_bool_decide as H1; simpl.
  - rewrite bool_decide_eq_true_2 by lia. done.
  - rewrite He. case_bool_decide; [done|]. by rewrite expire_if_due_later.
Qed.


(** X2. [create_pending_action] returns the identifier
    [pending_<epoch>_<first 8 hex digits>]. The new action is stored
    pending with [expires_at] 30 minutes after the clock read for it,
    unless the sweep that ends the call reads a clock past that time:
    then it is stored expired, or not at all when the clock is more than
    24 hours later. Every other identifier is left as the sweep alone
    leaves it. *)
Theorem create_pending_action_stores (epoch : Z) (uuid_hex : string)
    (now1 now2 now3 : Z) (session original suggested llm : value) m :
  let r := create_pending_action epoch uuid_hex now1 now2 now3
             session original suggested llm m in
  let a := new_action r.1 now1 now2 session original suggested llm in
  r.1 = "pending_" +:+ pretty epoch +:+ "_" +:+ String.substring 0 8 uuid_hex
  ∧ (now3 ≤ expires_at a → r.2 !! r.1 = Some a)
  ∧ (expires_at a < now3 → now3 - hours 24 ≤ expires_at a →
       r.2 !! r.1 = Some (set_status Expired a))
  ∧ (expires_at a < now3 - hours 24 → r.2 !! r.1 = None)
  ∧ (∀ id, id ≠ r.1 → r.2 !! id = _cleanup_expired now3 m !! id).
Proof.
  intros r a. unfold create_pending_action in r. simpl in r.
  subst r. simpl. fold (new_action ("pending_" +:+ pretty epoch +:+ "_" +:+ String.substring 0 8 uuid_hex) now1 now2 session original suggested llm).
  subst a. simpl.
  set (id0 := "pending_" +:+ pretty epoch +:+ "_" +:+ String.substring 0 8 uuid_hex).
  set (a := new_action id0 now1 now2 session original suggested llm).
  split_and!; [done|..].
  - intros Hle. rewrite cleanup_lookup, lookup_insert_eq. simpl.
    rewrite bool_decide_eq_false_2 by (unfold hours; simpl in *; lia).
    unfold expire_if_due. rewrite bool_decide_eq_false_2 by (simpl in *; lia). done.
  - intros Hlt Hret. rewrite cleanup_lookup, lookup_insert_eq. simpl.
    rewrite bool_decide_eq_false_2 by (simpl in *; lia).
    unfold expire_if_due. rewrite bool_decide_eq_true_2 by (simpl in *; lia). done.
  - intros Hold. rewrite cleanup_lookup, lookup_insert_eq. simpl.
    rewrite bool_decide_eq_true_2 by (simpl in *; lia). done.
  - intros id Hne. rewrite !cleanup_lookup, lookup_insert_ne by done. done.
Qed.

(** X3. Expiry is applied by the reads. [get_pending_action] on a pending
    action whose [expires_at] has passed, and which is still retained,
    returns and stores it with status expired; after that both
    [confirm_action] and [reject_action] return [None] and change
    nothing. *)
Theorem get_pending_action_expires_lazily (now now' now'' : Z) id m a :
  m !! id = Some a → status a = Pending →
  expires_at a < now → now - hours 24 ≤ expires_at a →
  let r := get_pending_action now id m in
  r.1 = Some (set_status Expired a)
  ∧ r.2 !! id = Some (set_status Expired a)
  ∧ confirm_action now' now'' id r.2 = (None, r.2)
  ∧ reject_action now' id r.2 = (None, r.2).
Proof.
  intros Hl Hp Hlt Hret r.
  assert (Hr : r.2 !! id = Some (set_status Expired a)).
  { subst r. unfold get_pending_action. simpl. rewrite cleanup_lookup, Hl. simpl.
    rewrite bool_decide_eq_false_2 by lia.
    unfold expire_if_due. rewrite bool_decide_eq_true_2 by lia.
    by rewrite (bool_decide_eq_true_2 _ Hp). }
  split_and!; [exact Hr | exact Hr | |].
  - unfold confirm_action. by rewrite Hr.
  - unfold reject_action. by rewrite Hr.
Qed.

(** X4. [reject_action] does not look at the TTL. On a pending action whose
    [expires_at] has passed, [confirm_action] returns [None], while
    [reject_action] succeeds and stores status rejected; but once
    [confirm_action] has stored status expired, [reject_action] returns
    [None] as well. *)
Theorem reject_action_ignores_ttl (now now' : Z) id m a :
  m !! id = Some a → status a = Pending → expires_at a < now →
  (confirm_action now now' id m).1 = None
  ∧ (reject_action now id m).1 = Some (set_rejected_at now (set_status Rejected a))
  ∧ (reject_action now id (confirm_action now now' id m).2).1 = None.
Proof.
  intros Hl Hp Hlt. unfold confirm_action, reject_action. rewrite Hl.
  rewrite (bool_decide_eq_true_2 _ Hp), (bool_decide_eq_true_2 _ Hlt). simpl.
  by rewrite lookup_insert_eq.
Qed.

Lemma confirm_action_Some (now1 now2 : Z) id m a' :
  (confirm_action now1 now2 id m).1 = Some a' →
  ∃ a, m !! id = Some a ∧ status a = Pending ∧ now1 ≤ expires_at a
    ∧ a' = set_confirmed_at now2 (set_status Confirmed a)
    ∧ (confirm_action now1 now2 id m).2 = <[id := a']> m.
Proof.
  unfold confirm_action. destruct (m !! id) as [a|]; [|done].
  case_bool_decide as Hp; simpl; [|done].
  case_bool_decide as Hlt; simpl; [done|].
  intros [= <-]. exists a. split_and!; [done|done|lia|done|done].
Qed.

(** X5. An action is confirmed at most once. After a successful
    [confirm_action] a second confirmation and a rejection return [None]
    and leave the store as it is; [mark_executed] then keeps
    [confirmed_at], and the executed action can be neither confirmed nor
    rejected. *)
Theorem confirm_action_at_most_once (now1 now2 t1 t2 t3 : Z) id (result : value) m a' :
  (confirm_action now1 now2 id m).1 = Some a' →
  let m1 := (confirm_action now1 now2 id m).2 in
  let m2 := (mark_executed t3 id result m1).2 in
  confirm_action t1 t2 id m1 = (None, m1)
  ∧ reject_action t1 id m1 = (None, m1)
  ∧ m2 !! id = Some (set_executed t3 result (set_status Executed a'))
  ∧ confirmed_at (set_executed t3 result (set_status Executed a')) = Some now2
  ∧ confirm_action t1 t2 id m2 = (None, m2)
  ∧ reject_action t1 id m2 = (None, m2).
Proof.
  intros Hc m1 m2.
  apply confirm_action_Some in Hc as (a & Hl & Hp & _ & -> & Hm1).
  subst m2 m1. rewrite Hm1.
  unfold mark_executed. rewrite lookup_insert_eq. simpl.
  unfold confirm_action, reject_action. rewrite !lookup_insert_eq. simpl. done.
Qed.

Lemma stamps_ok_expire (now : Z) id a : stamps_ok id a → stamps_ok id (expire_if_due now a).
Proof.
  unfold expire_if_due. case_match eqn:Hc; [|done].
  apply andb_true_iff in Hc as [_ Hp]. apply bool_decide_eq_true in Hp.
  intros (Hid & Hpend & Hex & Hc & Hr & Hx & Hxr). destruct (Hpend Hp) as [Hc0 Hr0].
  unfold stamps_ok. simpl. split_and!; try done.
  - split; [done|]. intros Hs. apply Hx in Hs. congruence.
Qed.

Lemma cleanup_stamps_ok (now : Z) m :
  map_Forall stamps_ok m → map_Forall stamps_ok (_cleanup_expired now m).
Proof.
  intros Hm id a'. rewrite cleanup_lookup.
  destruct (m !! id) as [a|] eqn:Hl; simpl; [|done].
  case_bool_decide; [done|]. intros [= <-]. apply stamps_ok_expire. by apply Hm.
Qed.

Ltac solve_stamps :=
  unfold stamps_ok; simpl; repeat split; intros;
  try done; try (by left); try (by right); try (by eexists);
  try (exfalso; by eapply is_Some_None); try (exfalso; by auto);
  try tauto.

Lemma step_stamps_ok o m :
  map_Forall stamps_ok m → map_Forall stamps_ok (step o m).
Proof.
  intros Hm. destruct o; simpl; try by apply cleanup_stamps_ok.
  - apply cleanup_stamps_ok. apply map_Forall_insert_2; [|done]. solve_stamps.
  - unfold confirm_action. destruct (m !! id) as [a|] eqn:Hl; [|done].
    pose proof (Hm id a Hl) as (Hid & Hpend & Hex & Hc & Hr & Hx & Hxr).
    case_bool_decide as Hp; simpl; [|done]. destruct (Hpend Hp) as [Hc0 Hr0].
    assert (Hnx : ¬ is_Some (executed_at a)) by (intros Hs; apply Hx in Hs; congruence).
    case_bool_decide; simpl; (apply map_Forall_insert_2; [|done]); solve_stamps.
  - unfold reject_action. destruct (m !! id) as [a|] eqn:Hl; [|done].
    pose proof (Hm id a Hl) as (Hid & Hpend & Hex & Hc & Hr & Hx & Hxr).
    case_bool_decide as Hp; simpl; [|done]. destruct (Hpend Hp) as [Hc0 Hr0].
    assert (Hnx : ¬ is_Some (executed_at a)) by (intros Hs; apply Hx in Hs; congruence).
    apply map_Forall_insert_2; [|done]. solve_stamps.
  - unfold mark_executed. destruct (m !! id) as [a|] eqn:Hl; [|done].
    pose proof (Hm id a Hl) as (Hid & Hpend & Hex & Hc & Hr & Hx & Hxr).
    simpl. apply map_Forall_insert_2; [|done]. solve_stamps.
Qed.

(** X6. In every store reached from the empty one by calls of the manager,
    an action is stored under its own identifier, a pending action has
    neither [confirmed_at] nor [rejected_at], no action has both, a
    confirmed action has [confirmed_at], a rejected one [rejected_at],
    and [executed_at] and [execution_result] are set exactly for status
    executed. *)
Theorem stamps_follow_status ops id a :
  run ops ∅ !! id = Some a → stamps_ok id a.
Proof.
  assert (Hall : ∀ m, map_Forall stamps_ok m → map_Forall stamps_ok (run ops m)).
  { induction ops as [|o ops IH]; intros m Hm; [done|].
    simpl. apply IH. by apply step_stamps_ok. }
  apply (Hall ∅). apply map_Forall_empty.
Qed.


Lemma same_proposal_refl a : same_proposal a a.
Proof. by repeat split. Qed.

Lemma transition_refl s : transition s s.
Proof. by left. Qed.

Lemma expire_if_due_transition (now : Z) a :
  same_proposal a (expire_if_due now a)
  ∧ transition (status a) (status (expire_if_due now a)).
Proof.
  unfold expire_if_due. case_match eqn:Hc.
  - apply andb_true_iff in Hc as [_ Hp]. apply bool_decide_eq_true in Hp.
    split; [by repeat split|]. right. left. split; [done|]. simpl. by repeat constructor.
  - split; [apply same_proposal_refl | apply transition_refl].
Qed.

(** X7. What one call can do to an action that is already stored (and that
    the call does not create anew): the proposal itself (identifier,
    session, times of creation and expiry, the two actions, the
    suggestion) never changes, and the status stays, or leaves pending
    for confirmed, rejected or expired, or becomes executed. The action
    disappears only in a call that sweeps, when its [expires_at] is more
    than 24 hours before the clock of the sweep. *)
Theorem step_transitions o m id a :
  m !! id = Some a → ¬ creates o id →
  match step o m !! id with
  | Some a' => same_proposal a a' ∧ transition (status a) (status a')
  | None => ∃ now, sweep_time o = Some now ∧ expires_at a < now - hours 24
  end.
Proof.
  intros Hl Hnc.
  assert (Hsweep : ∀ now m', m' !! id = Some a →
            match _cleanup_expired now m' !! id with
            | Some a' => same_proposal a a' ∧ transition (status a) (status a')
            | None => expires_at a < now - hours 24
            end).
  { intros now m' Hl'. rewrite cleanup_lookup, Hl'. simpl.
    case_bool_decide; [done|]. apply expire_if_due_transition. }
  destruct o; cbn [step creates sweep_time] in *.
  - unfold create_pending_action. cbn [snd].
    match goal with
    | |- context [_cleanup_expired ?n ?mm] => specialize (Hsweep n mm)
    end.
    rewrite lookup_insert_ne in Hsweep by done. specialize (Hsweep Hl).
    destruct (_cleanup_expired _ _ !! id); [done|]. by exists now3.
  - unfold get_pending_action. cbn [snd]. specialize (Hsweep now m Hl).
    destruct (_cleanup_expired _ _ !! id); [done|]. by exists now.
  - unfold confirm_action. destruct (m !! id0) as [b|] eqn:Hb; cbn [snd];
      [|rewrite Hl; split; [apply same_proposal_refl | apply transition_refl]].
    destruct (decide (id0 = id)) as [->|Hne].
    + rewrite Hl in Hb. injection Hb as <-.
      case_bool_decide as Hp; cbn [snd negb];
        [|rewrite Hl; split; [apply same_proposal_refl | apply transition_refl]].
      case_bool_decide; cbn [snd]; rewrite lookup_insert_eq;
        (split; [by repeat split|]); right; left; (split; [done|]); simpl; by repeat constructor.
    + destruct (negb (bool_decide (status b = Pending))); cbn [snd];
        [|destruct (bool_decide (expires_at b < now1)); cbn [snd]];
        rewrite ?lookup_insert_ne by done; rewrite Hl;
        (split; [apply same_proposal_refl | apply transition_refl]).
  - unfold reject_action. destruct (m !! id0) as [b|] eqn:Hb; cbn [snd];
      [|rewrite Hl; split; [apply same_proposal_refl | apply transition_refl]].
    destruct (decide (id0 = id)) as [->|Hne].
    + rewrite Hl in Hb. injection Hb as <-.
      case_bool_decide as Hp; cbn [snd];
        [|rewrite Hl; split; [apply same_proposal_refl | apply transition_refl]].
      rewrite lookup_insert_eq.
      (split; [by repeat split|]); right; left; (split; [done|]); simpl; by repeat constructor.
    + destruct (bool_decide (status b = Pending)); cbn [snd];
        rewrite ?lookup_insert_ne by done; rewrite Hl;
        (split; [apply same_proposal_refl | apply transition_refl]).
  - unfold mark_executed. destruct (m !! id0) as [b|] eqn:Hb; cbn [snd];
      [|rewrite Hl; split; [apply same_proposal_refl | apply transition_refl]].
    destruct (decide (id0 = id)) as [->|Hne].
    + rewrite Hl in Hb. injection Hb as <-. rewrite lookup_insert_eq.
      split; [by repeat split|]. by right; right.
    + rewrite lookup_insert_ne by done. rewrite Hl.
      split; [apply same_proposal_refl | apply transition_refl].
  - unfold get_pending_for_session. cbn [snd]. specialize (Hsweep now m Hl).
    destruct (_cleanup_expired _ _ !! id); [done|]. by exists now.
  - unfold get_status_summary. cbn [snd]. specialize (Hsweep now m Hl).
    destruct (_cleanup_expired _ _ !! id); [done|]. by exists now.
Qed.

(** X8. [get_pending_for_session] lists exactly the stored actions that are
    pending, not past [expires_at] at the clock of the call, and whose
    session equals the one asked for. *)
Theorem get_pending_for_session_lists (now : Z) (session : value) m id a :
  (get_pending_for_session now session m).1 !! id = Some a
  ↔ m !! id = Some a ∧ status a = Pending ∧ now ≤ expires_at a
    ∧ py_eq (session_id a) session = true.
Proof.
  unfold get_pending_for_session. simpl.
  rewrite map_lookup_filter_Some, cleanup_lookup. simpl. split.
  - intros [Hc [Hs Hp]]. destruct (m !! id) as [b|]; simpl in Hc; [|done].
    case_bool_decide; [done|]. injection Hc as <-.
    unfold expire_if_due in *.
    destruct (decide (expires_at b < now)) as [Hlt|Hge].
    + rewrite (bool_decide_eq_true_2 _ Hlt) in *. simpl in *.
      case_bool_decide; simpl in *; [done|]. done.
    + rewrite (bool_decide_eq_false_2 _ Hge) in *. simpl in *.
      split_and!; [done|done|lia|done].
  - intros (Hl & Hp & Hle & Hs). rewrite Hl. simpl.
    assert (0 < hours 24) by (unfold hours; lia).
    rewrite bool_decide_eq_false_2 by lia.
    unfold expire_if_due. rewrite bool_decide_eq_false_2 by lia. done.
Qed.


Lemma status_str_inj s s' : status_str s = status_str s' → s = s'.
Proof. by destruct s, s'. Qed.

(** X9. [get_status_summary] counts the store after its sweep: [total] is
    the number of stored actions, [by_status] holds for each status the
    number of actions with it, has only status names as keys, none with
    a count of 0, and its counts add up to [total]. *)
Theorem get_status_summary_counts (now : Z) m :
  let r := get_status_summary now m in
  r.1.1 = size r.2
  ∧ (∀ s, reported r.1.2 s = size (filter (λ kv, status kv.2 = s) r.2))
  ∧ (∀ k n, r.1.2 !! k = Some n → (0 < n)%nat ∧ ∃ s, k = status_str s)
  ∧ sum_list (reported r.1.2 <$> all_statuses) = r.1.1.
Proof.
  unfold get_status_summary. cbn [fst snd].
  set (m' := _cleanup_expired now m). clearbody m'. clear m.
  split; [done|].
  set (f := λ (_ : string) (a : pending_data) (acc : gmap string nat),
              <[status_str (status a) :=
                  (default 0 (acc !! status_str (status a)) + 1)%nat]> acc).
  apply (map_fold_weak_ind
           (λ (acc : gmap string nat) (m0 : gmap string pending_data),
              (∀ s, reported acc s = size (filter (λ kv, status kv.2 = s) m0))
              ∧ (∀ k n, acc !! k = Some n → (0 < n)%nat ∧ ∃ s, k = status_str s)
              ∧ sum_list (reported acc <$> all_statuses) = size m0) f ∅).
  - split_and!.
    + intros s. unfold reported. by rewrite lookup_empty, map_filter_empty, map_size_empty.
    + intros k n. by rewrite lookup_empty.
    + by rewrite map_size_empty.
  - intros i x m r Hi (Hcount & Hkeys & Hsum).
    assert (Hrep : ∀ s, reported (f i x r) s
                       = if decide (status x = s) then S (reported r s) else reported r s).
    { intros s. unfold reported, f. case_decide as Hs.
      - subst s. rewrite lookup_insert_eq. simpl. lia.
      - rewrite lookup_insert_ne; [done|]. intros Heq. by apply status_str_inj in Heq. }
    split_and!.
    + intros s. rewrite Hrep, map_filter_insert. simpl. case_decide as Hs.
      * rewrite map_size_insert_None; [by rewrite Hcount|].
        apply map_lookup_filter_None. by left.
      * by rewrite delete_id, Hcount.
    + intros k n. unfold f. destruct (decide (k = status_str (status x))) as [->|Hne].
      * rewrite lookup_insert_eq. intros [= <-]. split; [lia|eauto].
      * rewrite lookup_insert_ne by done. apply Hkeys.
    + rewrite map_size_insert_None by done. rewrite <- Hsum.
      unfold all_statuses. simpl. rewrite !Hrep.
      destruct (status x); repeat case_decide; try done; lia.
Qed.

Import Samples.

Lemma cleanup_absorbs_earlier_witness :
  let m : gmap string pending_data := {[ "p1" := pending_sample ]} in
  _cleanup_expired (hours 30) (_cleanup_expired (hours 1) m)
  = _cleanup_expired (hours 30) m.
Proof.
  intros m. apply (cleanup_absorbs_earlier (hours 1) (hours 30) m).
  unfold hours. simpl. lia.
Defined.

Lemma get_pending_action_expires_lazily_witness :
  let m : gmap string pending_data := {[ "p1" := pending_sample ]} in
  let r := get_pending_action (minutes 31) "p1" m in
  r.1 = Some (set_status Expired pending_sample)
  ∧ r.2 !! "p1" = Some (set_status Expired pending_sample)
  ∧ confirm_action (minutes 32) (minutes 32) "p1" r.2 = (None, r.2)
  ∧ reject_action (minutes 32) "p1" r.2 = (None, r.2).
Proof.
  intros m.
  apply (get_pending_action_expires_lazily (minutes 31) (minutes 32) (minutes 32)
           "p1" m pending_sample).
  - vm_compute. reflexivity.
  - reflexivity.
  - vm_compute. reflexivity.
  - by vm_compute.
Defined.

Lemma reject_action_ignores_ttl_witness :
  let m : gmap string pending_data := {[ "p1" := pending_sample ]} in
  (confirm_action (minutes 31) (minutes 31) "p1" m).1 = None
  ∧ (reject_action (minutes 31) "p1" m).1
    = Some (set_rejected_at (minutes 31) (set_status Rejected pending_sample))
  ∧ (reject_action (minutes 31) "p1" (confirm_action (minutes 31) (minutes 31) "p1" m).2).1
    = None.
Proof.
  intros m.
  apply (reject_action_ignores_ttl (minutes 31) (minutes 31) "p1" m pending_sample).
  - vm_compute. reflexivity.
  - reflexivity.
  - vm_compute. reflexivity.
Defined.

Lemma confirm_action_at_most_once_witness :
  let m : gmap string pending_data := {[ "p1" := pending_sample ]} in
  let m1 := (confirm_action 1 2 "p1" m).2 in
  confirm_action 3 4 "p1" m1 = (None, m1) ∧ reject_action 3 "p1" m1 = (None, m1).
Proof.
  intros m m1.
  destruct (confirm_action_at_most_once 1 2 3 4 5 "p1" VNone m
              (set_confirmed_at 2 (set_status Confirmed pending_sample)))
    as (Hc & Hr & _).
  - vm_compute. reflexivity.
  - split; [exact Hc | exact Hr].
Defined.

Lemma stamps_follow_status_witness :
  let ops := [Create 100 "abcdef0123456789" 0 0 0 (VStr "s1") VNone VNone VNone;
              Confirm 1 2 "pending_100_abcdef01"] in
  ∃ a, run ops ∅ !! "pending_100_abcdef01" = Some a
       ∧ status a = Confirmed ∧ stamps_ok "pending_100_abcdef01" a.
Proof.
  intros ops.
  assert (Hl : ∃ a, run ops ∅ !! "pending_100_abcdef01" = Some a ∧ status a = Confirmed).
  { eexists. split; [vm_compute; reflexivity|reflexivity]. }
  destruct Hl as (a & Hl & Hs). exists a. split_and!; [exact Hl | exact Hs |].
  exact (stamps_follow_status ops _ a Hl).
Defined.

Lemma step_transitions_witness :
  let m : gmap string pending_data := {[ "p1" := pending_sample ]} in
  match step (Confirm 1 2 "p1") m !! "p1" with
  | Some a' => same_proposal pending_sample a' ∧ transition Pending (status a')
  | None => ∃ now, sweep_time (Confirm 1 2 "p1") = Some now
                   ∧ expires_at pending_sample < now - hours 24
  end.
Proof.
  intros m.
  apply (step_transitions (Confirm 1 2 "p1") m "p1" pending_sample).
  - vm_compute. reflexivity.
  - simpl. tauto.
Defined.

End PendingActionsExtra.

(** * The ledger and the pattern table *)
Module LedgerSpec.
Import Py Learning Ledger LearningSpec.
Section spec.
Context `{Runtime}.

Lemma update_pattern_counters e now p ua :
  user_action e = VStr ua →
  let p' := (update_pattern e now p).1 in
  accepted p' = accepted p + bump ua "accepted"
  ∧ rejected p' = rejected p + bump ua "rejected"
  ∧ ignored p' = ignored p + bump ua "ignored"
  ∧ total_suggestions p' = total_suggestions p + 1 + bump ua "total_suggestions".
Proof.
  intros Hua. unfold_upd. rewrite Hua.
  assert (Hinc : match increment_key (VStr ua) (set_total (total_suggestions p + 1) p) with
                 | Ok p1 =>
                     accepted p1 = accepted p + bump ua "accepted"
                     ∧ rejected p1 = rejected p + bump ua "rejected"
                     ∧ ignored p1 = ignored p + bump ua "ignored"
                     ∧ total_suggestions p1
                       = total_suggestions p + 1 + bump ua "total_suggestions"
                 | Raise _ =>
                     bump ua "accepted" = 0 ∧ bump ua "rejected" = 0
                     ∧ bump ua "ignored" = 0 ∧ bump ua "total_suggestions" = 0
                 end).
  { unfold increment_key, bump.
    repeat case_bool_decide; subst; simpl; repeat case_decide; try done; lia. }
  set (b3 := py_eq (VStr ua) (VStr "rejected")).
  set (b2 := py_eq (VStr ua) (VStr "accepted")).
  set (b1 := b3 && truthy (feedback_reason e)).
  clearbody b1 b2 b3.
  destruct (increment_key _ _) as [p1|]; simpl.
  2: { destruct Hinc as (-> & -> & -> & ->). lia. }
  destruct Hinc as (Ha & Hr & Hi & Ht).
  destruct (truediv _ _) as [r|]; simpl; [|done].
  assert (Hkeep : ∀ q, accepted q = accepted p1 → rejected q = rejected p1 →
            ignored q = ignored p1 → total_suggestions q = total_suggestions p1 →
            accepted q = accepted p + bump ua "accepted"
            ∧ rejected q = rejected p + bump ua "rejected"
            ∧ ignored q = ignored p + bump ua "ignored"
            ∧ total_suggestions q = total_suggestions p + 1 + bump ua "total_suggestions").
  { intros q -> -> -> ->. done. }
  destruct b1.
  - unfold track_reason. destruct (hashable _); simpl; [|by apply Hkeep].
    destruct (suggestion_summary e); simpl; [|by apply Hkeep].
    destruct b2; [|destruct b3]; simpl; by apply Hkeep.
  - simpl. destruct (suggestion_summary e); simpl; [|by apply Hkeep].
    destruct b2; [|destruct b3]; simpl; by apply Hkeep.
Qed.

Lemma entries_of_snoc k l e :
  entries_of k (l ++ [e]) = entries_of k l + (if has_key k e then 1 else 0).
Proof.
  unfold entries_of. rewrite filter_app, length_app, Nat2Z.inj_add. f_equal.
  rewrite filter_cons, filter_nil. destruct (has_key k e); by case_decide.
Qed.

Lemma entries_with_snoc k ua l e :
  entries_with k ua (l ++ [e])
  = entries_with k ua l + (if has_key k e && has_action ua e then 1 else 0).
Proof.
  unfold entries_with. rewrite filter_app, length_app, Nat2Z.inj_add. f_equal.
  rewrite filter_cons, filter_nil. destruct (has_key k e && has_action ua e); by case_decide.
Qed.

Lemma has_action_bump e ua target :
  user_action e = VStr ua →
  (if has_action target e then 1 else 0) = bump ua target.
Proof.
  intros Hua. unfold has_action, bump. rewrite Hua. simpl.
  destruct (String.eqb_spec ua target); by case_decide.
Qed.

Lemma has_key_Ok e key k :
  entry_pattern_key e = Ok key → has_key k e = bool_decide (key = k).
Proof.
  intros Hk. unfold has_key. rewrite Hk.
  destruct (String.eqb_spec key k); by case_bool_decide.
Qed.

Lemma entries_of_nonneg k l : 0 ≤ entries_of k l.
Proof. unfold entries_of. lia. Qed.

Lemma apply_call_counters c d :
  counters_match d → counters_match (apply_call c d).2.
Proof.
  intros Hd. unfold apply_call, record_feedback.
  destruct (LearningEntry_init _ _ _ _ _ _) as [e|] eqn:Hi; [|done].
  apply init_fields in Hi as (_ & _ & _ & Hua & _).
  unfold _update_patterns.
  destruct (entry_pattern_key e) as [key|] eqn:Hk.
  2: { intros k. destruct (Hd k) as (Ha & Hr & Hi & Ht & Hs).
       assert (Hno : has_key k e = false) by (unfold has_key; by rewrite Hk).
       simpl. unfold counter in *. simpl.
       rewrite !entries_with_snoc, entries_of_snoc, Hno. simpl.
       rewrite !Z.add_0_r. done. }
  pose proof (update_pattern_counters e (call_now2 c)
    (default (new_pattern (isoformat (call_now1 c))) (patterns d !! key)) _ Hua) as Hc.
  destruct (update_pattern e _ _) as [p' r] eqn:Hu. simpl in Hc.
  assert (Hd' : counters_match {| entries := entries d ++ [e];
                                  patterns := <[key := p']> (patterns d) |}).
  { intros k. destruct (Hd k) as (Ha & Hr & Hi & Ht & Hs).
    unfold counter in *. simpl.
    rewrite !entries_with_snoc, entries_of_snoc, (has_key_Ok _ _ _ Hk).
    case_bool_decide as Hkey.
    - subst k. rewrite lookup_insert_eq. simpl.
      rewrite !(has_action_bump _ _ _ Hua).
      destruct Hc as (Ha' & Hr' & Hi' & Ht').
      pose proof (entries_of_nonneg key (entries d)).
      destruct (patterns d !! key) as [p0|]; simpl in *.
      + split_and!; try lia. split; [lia | by eauto].
      + split_and!; try lia. split; [lia | by eauto].
    - rewrite lookup_insert_ne by done. simpl. rewrite !Z.add_0_r. done. }
  by destruct r.
Qed.

Lemma run_counters cs d : counters_match d → counters_match (run cs d).
Proof.
  revert d. induction cs as [|c cs IH]; intros d Hd; [done|].
  simpl. apply IH. by apply apply_call_counters.
Qed.

Lemma empty_counters : counters_match empty_db.
Proof.
  intros k. unfold counter, entries_with, entries_of. simpl.
  rewrite lookup_empty. repeat split; try done; try lia.
Qed.

(** X10. The counters of the pattern table count the ledger. After any
    sequence of [record_feedback] calls on the empty database, whatever
    the actions and whether the calls returned an identifier or [None],
    for every key the counters [accepted], [rejected] and [ignored] of
    the pattern (0 when there is none) are the numbers of ledger entries
    with that key and that action; [total_suggestions] is the number of
    entries with the key, plus once more those whose action is the
    string ["total_suggestions"]; and the pattern exists exactly when
    the ledger has an entry with its key. *)
Theorem counters_count_ledger cs : counters_match (run cs empty_db).
Proof. apply run_counters, empty_counters. Qed.

Lemma truediv_proportion a t r :
  0 ≤ a → a ≤ t → 0 < t → truediv a t = Ok r → (0 ≤ r)%Qc ∧ (r ≤ 1)%Qc.
Proof.
  intros Ha Hat Ht. unfold truediv.
  destruct (Z.eqb_spec t 0) as [?|Hne]; [lia|]. intros [= <-].
  pose proof (proj1 (Z2Qc_inj_lt 0 t) Ht) as Ht'. rewrite Z2Qc_inj_0 in Ht'.
  pose proof (proj1 (Z2Qc_inj_le 0 a) Ha) as Ha'. rewrite Z2Qc_inj_0 in Ha'.
  pose proof (proj1 (Z2Qc_inj_le a t) Hat) as Hat'.
  split.
  - unfold Qcdiv. apply Qcmult_nonneg_nonneg; [done|].
    apply Qclt_le_weak, Qcinv_pos. done.
  - apply (Qcmult_le_mono_pos_r _ _ (Qc_of_Z t)); [done|].
    unfold Qcdiv. rewrite <- Qcmult_assoc, Qcmult_inv_l, Qcmult_1_r, Qcmult_1_l; [done|].
    apply not_symmetry, Qclt_not_eq. done.
Qed.

(** The rate after [update_pattern] is the old one or the quotient of
    the new counters. *)
Lemma update_pattern_rate e now p :
  0 ≤ total_suggestions p →
  let p' := (update_pattern e now p).1 in
  success_rate p' = success_rate p ∨ rate_consistent p'.
Proof.
  intros Hp. unfold_upd.
  set (b3 := py_eq (user_action e) (VStr "rejected")).
  set (b2 := py_eq (user_action e) (VStr "accepted")).
  set (b1 := b3 && truthy (feedback_reason e)).
  clearbody b1 b2 b3.
  destruct (increment_key _ _) as [p1|] eqn:Hk; simpl; [|by left].
  destruct (truediv _ _) as [r|] eqn:Hr; simpl.
  2: { unfold truediv in Hr. destruct (Z.eqb_spec (total_suggestions p1) 0) as [Hz|]; [|done].
       exfalso. unfold increment_key in Hk.
       repeat case_match; simplify_eq; simpl in *; lia. }
  assert (Hkeep : ∀ q, accepted q = accepted p1 → total_suggestions q = total_suggestions p1 →
            success_rate q = r → rate_consistent q).
  { intros q Ha Ht Hq. unfold rate_consistent. by rewrite Ha, Ht, Hq. }
  destruct b1.
  - unfold track_reason. destruct (hashable _); simpl; [|right; by apply Hkeep].
    destruct (suggestion_summary e); simpl; [|right; by apply Hkeep].
    destruct b2; [|destruct b3]; simpl; right; by apply Hkeep.
  - simpl. destruct (suggestion_summary e); simpl; [|right; by apply Hkeep].
    destruct b2; [|destruct b3]; simpl; right; by apply Hkeep.
Qed.

Lemma bump_cases ua :
  (bump ua "accepted" = 0 ∨ bump ua "accepted" = 1)
  ∧ (bump ua "rejected" = 0 ∨ bump ua "rejected" = 1)
  ∧ (bump ua "ignored" = 0 ∨ bump ua "ignored" = 1)
  ∧ 0 ≤ bump ua "total_suggestions"
  ∧ bump ua "accepted" + bump ua "rejected" + bump ua "ignored" ≤ 1.
Proof. unfold bump. repeat case_decide; subst; try done; lia. Qed.

Lemma update_pattern_in_range e now p ua :
  user_action e = VStr ua → in_range p →
  let p' := (update_pattern e now p).1 in
  0 < total_suggestions p' ∧ in_range p'.
Proof.
  intros Hua (Ha & Hr & Hi & Ht & Hr0 & Hr1).
  pose proof (update_pattern_counters e now p ua Hua) as (Ha' & Hr' & Hi' & Ht').
  pose proof (update_pattern_rate e now p ltac:(lia)) as Hrate.
  pose proof (bump_cases ua) as (Hb1 & Hb2 & Hb3 & Hb4 & Hb5).
  simpl in *. split; [lia|]. unfold in_range. split_and!; try lia.
  - destruct Hrate as [-> | Hq]; [done|].
    apply truediv_proportion in Hq; [tauto|lia..].
  - destruct Hrate as [-> | Hq]; [done|].
    apply truediv_proportion in Hq; [tauto|lia..].
Qed.

Definition stored_in_range (p : pattern) : Prop := 0 < total_suggestions p ∧ in_range p.

Lemma apply_call_in_range c d :
  map_Forall (λ _, stored_in_range) (patterns d) →
  map_Forall (λ _, stored_in_range) (patterns (apply_call c d).2).
Proof.
  intros Hd. unfold apply_call, record_feedback.
  destruct (LearningEntry_init _ _ _ _ _ _) as [e|] eqn:Hi; [|done].
  apply init_fields in Hi as (_ & _ & _ & Hua & _).
  unfold _update_patterns.
  destruct (entry_pattern_key e) as [key|]; [|done].
  destruct (update_pattern e _ _) as [p' r] eqn:Hu.
  assert (Hp' : stored_in_range p').
  { change p' with (p', r).1. rewrite <- Hu.
    apply (update_pattern_in_range _ _ _ _ Hua).
    destruct (patterns d !! key) as [q|] eqn:Hl; simpl.
    - by destruct (Hd key q Hl).
    - unfold in_range. simpl. repeat split; done. }
  destruct r; simpl; by apply map_Forall_insert_2.
Qed.

Lemma run_in_range cs d :
  map_Forall (λ _, stored_in_range) (patterns d) →
  map_Forall (λ _, stored_in_range) (patterns (run cs d)).
Proof.
  revert d. induction cs as [|c cs IH]; intros d Hd; [done|].
  simpl. apply IH. by apply apply_call_in_range.
Qed.

(** X11. After any sequence of [record_feedback] calls on the empty
    database, every stored pattern has [total_suggestions] positive, the
    three outcome counters non-negative with a sum of at most
    [total_suggestions], and a [success_rate] between 0 and 1, also
    after calls with undocumented actions and calls that raised. *)
Theorem stored_counters_in_range cs k p :
  patterns (run cs empty_db) !! k = Some p →
  0 < total_suggestions p ∧ in_range p.
Proof.
  intros Hl. apply (run_in_range cs empty_db (map_Forall_empty _) k p Hl).
Qed.

(** X12. On a database reached by [record_feedback] calls, the
    [confidence_score] of [get_suggestion_guidance] lies between 0 and
    0.9 for every action, and [should_suggest] is false only when the
    pattern of the action exists with a rate below 0.3, which is then
    the confidence. *)
Theorem guidance_confidence_in_range cs ca bc :
  let r := get_suggestion_guidance ca bc (run cs empty_db) in
  (0 ≤ result_confidence_score r)%Qc ∧ (result_confidence_score r ≤ f0_9)%Qc
  ∧ (result_should_suggest r = false →
     ∃ key p, action_pattern_key ca = Ok key
       ∧ patterns (run cs empty_db) !! key = Some p
       ∧ (success_rate p < f0_3)%Qc
       ∧ result_confidence_score r = success_rate p).
Proof.
  simpl. unfold get_suggestion_guidance.
  destruct (guidance_body _ _ _) as [g|] eqn:Hg; simpl.
  2: { split_and!; [done..|]. done. }
  apply guidance_body_Ok in Hg as (key & l & Hkey & _ & _ & Hp).
  destruct (patterns (run cs empty_db) !! key) as [p|] eqn:Hl.
  - destruct Hp as (_ & Hc & Hlow & Hhigh).
    pose proof (stored_counters_in_range _ _ _ Hl) as (_ & _ & _ & _ & _ & Hr0 & Hr1).
    pose proof (py_min_spec f0_9 (success_rate p)) as (Hm1 & Hm2 & Hm3).
    rewrite Hc. split_and!.
    + destruct Hm3 as [-> | ->]; done.
    + done.
    + intros Hs. destruct (decide (success_rate p < f0_3)%Qc) as [Hlt|Hnlt].
      * exists key, p. split_and!; [done..|].
        unfold py_min. rewrite bool_decide_eq_true_2; [done|].
        eapply Qclt_trans; [exact Hlt|done].
      * destruct (Hhigh Hnlt) as [Hs' _]. congruence.
  - destruct Hp as (Hs & Hc & _). rewrite Hc, Hs. split_and!; done.
Qed.





Lemma py_eq_str a b : py_eq (VStr a) (VStr b) = bool_decide (a = b).
Proof. simpl. destruct (String.eqb_spec a b); by case_bool_decide. Qed.











Lemma apply_call_appends c d :
  let '(r, d') := apply_call c d in
  (entries d' = entries d ∨ ∃ e, entries d' = entries d ++ [e])
  ∧ (∀ i, r = Some i → ∃ e, entries d' = entries d ++ [e] ∧ id e = i
                           ∧ i = VStr (call_uuid c))
  ∧ dom (patterns d) ⊆ dom (patterns d')
  ∧ (size (patterns d') ≤ S (size (patterns d)))%nat.
Proof.
  unfold apply_call, record_feedback.
  destruct (LearningEntry_init _ _ _ _ _ _) as [e|] eqn:Hi.
  2: { split_and!; [by left|done|done|lia]. }
  apply init_fields in Hi as (Hid & _).
  unfold _update_patterns.
  destruct (entry_pattern_key e) as [key|] eqn:Hk.
  2: { split_and!; [right; by exists e|done|done|simpl; lia]. }
  destruct (update_pattern e _ _) as [p' r] eqn:Hu.
  assert (Hdom : dom (patterns d) ⊆ dom (<[key := p']> (patterns d))).
  { rewrite dom_insert. apply union_subseteq_r. }
  assert (Hsize : (size (<[key := p']> (patterns d)) ≤ S (size (patterns d)))%nat).
  { destruct (patterns d !! key) eqn:Hl.
    - rewrite map_size_insert_Some by eauto. lia.
    - rewrite map_size_insert_None by done. lia. }
  destruct r; simpl.
  - split_and!; [right; by exists e| |done|done].
    intros i [= <-]. by exists e.
  - split_and!; [right; by exists e|done|done|done].
Qed.








(** X14. When every call passes one of the documented actions,
    [total_suggestions] of a pattern is the sum of [accepted],
    [rejected] and [ignored], and is the number of ledger entries with
    the key of the pattern. *)
Theorem documented_actions_add_up cs k p :
  Forall (λ c, valid_action (call_user_action c)) cs →
  patterns (run cs empty_db) !! k = Some p →
  total_suggestions p = accepted p + rejected p + ignored p
  ∧ total_suggestions p = entries_of k (entries (run cs empty_db)).
Proof.
  intros Hcs.
  assert (Hall : ∀ d,
    (counters_match d ∧ ∀ k, entries_with k "total_suggestions" (entries d) = 0
        ∧ entries_of k (entries d)
          = entries_with k "accepted" (entries d) + entries_with k "rejected" (entries d)
            + entries_with k "ignored" (entries d)) →
    let d' := run cs d in
    counters_match d' ∧ ∀ k, entries_with k "total_suggestions" (entries d') = 0
        ∧ entries_of k (entries d')
          = entries_with k "accepted" (entries d') + entries_with k "rejected" (entries d')
            + entries_with k "ignored" (entries d')).
  { induction Hcs as [|c cs Hc _ IH]; intros d Hd; [done|].
    simpl. apply IH. destruct Hd as [Hm Hd]. split; [by apply apply_call_counters|].
    intros k0. destruct (Hd k0) as [Ht Hsum].
    unfold apply_call, record_feedback.
    destruct (LearningEntry_init _ _ _ _ _ _) as [e|] eqn:Hi; [|done].
    apply init_fields in Hi as (_ & _ & _ & Hua & _).
    assert (He : entries_with k0 "total_suggestions" (entries d ++ [e]) = 0
                 ∧ entries_of k0 (entries d ++ [e])
                   = entries_with k0 "accepted" (entries d ++ [e])
                     + entries_with k0 "rejected" (entries d ++ [e])
                     + entries_with k0 "ignored" (entries d ++ [e])).
    { rewrite !entries_with_snoc, entries_of_snoc.
      unfold has_action. rewrite Hua, !py_eq_str.
      unfold valid_action in Hc. rewrite !elem_of_cons in Hc.
      destruct (has_key k0 e); simpl; [|lia].
      destruct Hc as [-> | [-> | [-> | Hnil]]]; [..|by apply elem_of_nil in Hnil];
        repeat case_bool_decide; try done; lia. }
    destruct (_update_patterns _ _ _ _) as [pats r]. by destruct r. }
  intros Hl.
  destruct (Hall empty_db) as [Hm Hd].
  { split; [apply empty_counters|]. intros k0. unfold entries_with, entries_of. simpl. lia. }
  simpl in Hm, Hd. destruct (Hm k) as (Ha & Hr & Hi & Ht & _). destruct (Hd k) as [Hz Hsum].
  unfold counter in *. rewrite Hl in *. lia.
Qed.

(** X13. [record_feedback] only appends: after any sequence of calls the
    old ledger is a prefix of the new one, which has grown by at most
    one entry per call, every pattern key is still in the table, and
    the table has grown by at most one pattern per call. *)
Theorem ledger_append_only cs d :
  entries d `prefix_of` entries (run cs d)
  ∧ (length (entries (run cs d)) ≤ length (entries d) + length cs)%nat
  ∧ dom (patterns d) ⊆ dom (patterns (run cs d))
  ∧ (size (patterns (run cs d)) ≤ size (patterns d) + length cs)%nat.
Proof.
  revert d. induction cs as [|c cs IH]; intros d; simpl.
  - split_and!; [done|lia|done|lia].
  - destruct (IH (apply_call c d).2) as (Hp & Hl & Hd & Hs).
    pose proof (apply_call_appends c d) as Hc.
    destruct (apply_call c d) as [r d']. simpl in *.
    destruct Hc as (He & _ & Hd' & Hs').
    split_and!.
    + etrans; [|exact Hp]. destruct He as [-> | [e ->]]; [done|]. by apply prefix_app_r.
    + destruct He as [He | [e He]]; rewrite He in Hl; rewrite ?length_app in Hl; simpl in Hl; lia.
    + by etrans.
    + lia.
Qed.

End spec.

Import Samples.

Lemma stored_counters_in_range_witness :
  let d := run [reject_call; accept_call] empty_db in
  ∃ p, patterns d !! "open_screen_SalesOrder" = Some p
       ∧ 0 < total_suggestions p ∧ in_range p.
Proof.
  intros d.
  assert (Hl : ∃ p, patterns d !! "open_screen_SalesOrder" = Some p)
    by (eexists; vm_compute; reflexivity).
  destruct Hl as [p Hl]. exists p. split; [exact Hl|].
  exact (stored_counters_in_range [reject_call; accept_call] "open_screen_SalesOrder" p Hl).
Defined.

Lemma documented_actions_add_up_witness :
  let d := run [reject_call; accept_call] empty_db in
  ∃ p, patterns d !! "open_screen_SalesOrder" = Some p
       ∧ total_suggestions p = accepted p + rejected p + ignored p
       ∧ total_suggestions p = entries_of "open_screen_SalesOrder" (entries d).
Proof.
  intros d.
  assert (Hl : ∃ p, patterns d !! "open_screen_SalesOrder" = Some p)
    by (eexists; vm_compute; reflexivity).
  destruct Hl as [p Hl]. exists p. split; [exact Hl|].
  assert (Hv : Forall (λ c, valid_action (call_user_action c)) [reject_call; accept_call]).
  { clear. repeat apply Forall_cons_2; [..|apply Forall_nil_2];
      unfold valid_action; simpl; repeat constructor. }
  exact (documented_actions_add_up [reject_call; accept_call]
           "open_screen_SalesOrder" p Hv Hl).
Defined.


End LedgerSpec.

(** * Loading entries *)
Module EntrySpec.
Import Py Learning LearningSpec.
Section spec.
Context `{Runtime}.

Lemma _analyze_session_pattern_any_time ctx ts ts' v :
  _analyze_session_pattern ctx ts = Ok v → is_ok (_analyze_session_pattern ctx ts') = true.
Proof.
  unfold _analyze_session_pattern. intros Hv. inv_bind Hv. by replay_steps.
Qed.

Lemma _extract_pattern_features_any_time ctx ts ts' v :
  _extract_pattern_features ctx ts = Ok v → is_ok (_extract_pattern_features ctx ts') = true.
Proof.
  unfold _extract_pattern_features. intros Hv. inv_bind Hv. replay_steps.
  apply (_analyze_session_pattern_any_time _ _ ts') in Hx7.
  by destruct (_analyze_session_pattern ctx ts').
Qed.

Lemma dict_getitem_Ok data k v : dict_getitem data k = Ok v ↔ lookup_key k data = Some v.
Proof.
  unfold dict_getitem. destruct (lookup_key k data); split; intros; by simplify_eq.
Qed.

(** X18. [from_dict] takes [id], [timestamp], [context_hash] and
    [pattern_features] from the dictionary as they are, without
    comparing the last two with what the constructor computes from the
    context; a missing [feedback_reason] or [execution_result] is
    [None]; the result does not depend on the identifier and the clock
    the constructor reads. It raises only when one of the other six keys
    is missing, the constructor rejects the context, or the time stamp
    cannot be parsed. *)
Theorem from_dict_reads_stored_fields uuid now data :
  match from_dict uuid now data with
  | Ok e =>
      (∀ uuid' now', from_dict uuid' now' data = Ok e)
      ∧ lookup_key "id" data = Some (id e)
      ∧ (∃ s, lookup_key "timestamp" data = Some (VStr s)
              ∧ fromisoformat s = Ok (timestamp e))
      ∧ lookup_key "suggestion_context" data = Some (suggestion_context e)
      ∧ lookup_key "user_action" data = Some (user_action e)
      ∧ dict_get data "feedback_reason" VNone = feedback_reason e
      ∧ dict_get data "execution_result" VNone = execution_result e
      ∧ lookup_key "context_hash" data = Some (context_hash e)
      ∧ lookup_key "pattern_features" data = Some (pattern_features e)
  | Raise _ =>
      (∃ k, k ∈ ["suggestion_context"; "user_action"; "id"; "timestamp";
                 "context_hash"; "pattern_features"]
            ∧ lookup_key k data = None)
      ∨ (∃ ctx, lookup_key "suggestion_context" data = Some ctx
           ∧ ∀ uuid' now' ua reason result,
               is_ok (LearningEntry_init uuid' now' ctx ua reason result) = false)
      ∨ (∃ t, lookup_key "timestamp" data = Some t ∧ is_ok (parse_timestamp t) = false)
  end.
Proof.
  destruct (from_dict uuid now data) as [e|err] eqn:Hf.
  - unfold from_dict in Hf. inv_bind Hf. simplify_eq. simpl.
    apply dict_getitem_Ok in Hx, Hx0, Hx2, Hx3, Hx5, Hx6.
    apply init_fields in Hx1 as Hfields. destruct Hfields as (_ & _ & -> & -> & -> & ->).
    split_and!; try done.
    + intros uuid' now'. unfold from_dict.
      apply dict_getitem_Ok in Hx, Hx0, Hx2, Hx3, Hx5, Hx6.
      rewrite Hx, Hx0. simpl.
      unfold LearningEntry_init in Hx1 |- *. inv_bind Hx1.
      rewrite Hx7. simpl.
      apply (_extract_pattern_features_any_time _ _ now') in Hx8.
      destruct (_extract_pattern_features x now') as [pf'|]; [|done]. simpl.
      rewrite Hx2, Hx3. simpl. rewrite Hx4. simpl. rewrite Hx5, Hx6. done.
    + unfold parse_timestamp in Hx4. destruct x3; try done. by exists s.
  - unfold from_dict in Hf.
    destruct (lookup_key "suggestion_context" data) as [ctx|] eqn:Hctx.
    2: { left. exists "suggestion_context". split; [set_solver|done]. }
    destruct (lookup_key "user_action" data) as [ua|] eqn:Hua.
    2: { left. exists "user_action". split; [set_solver|done]. }
    rewrite (proj2 (dict_getitem_Ok _ _ _) Hctx), (proj2 (dict_getitem_Ok _ _ _) Hua) in Hf.
    simpl in Hf.
    destruct (LearningEntry_init uuid now ctx ua _ _) as [e0|] eqn:Hinit.
    2: { right. left. exists ctx. split; [done|]. intros uuid' now' ua' reason result.
         unfold LearningEntry_init in Hinit |- *.
         destruct (_generate_context_hash ctx); simpl in *; [|done].
         destruct (_extract_pattern_features ctx now') eqn:Hpf; simpl; [|done].
         apply (_extract_pattern_features_any_time _ _ now) in Hpf.
         by destruct (_extract_pattern_features ctx now). }
    simpl in Hf.
    destruct (lookup_key "id" data) as [i|] eqn:Hid.
    2: { left. exists "id". split; [set_solver|done]. }
    destruct (lookup_key "timestamp" data) as [t|] eqn:Ht.
    2: { left. exists "timestamp". split; [set_solver|done]. }
    rewrite (proj2 (dict_getitem_Ok _ _ _) Hid), (proj2 (dict_getitem_Ok _ _ _) Ht) in Hf.
    simpl in Hf.
    destruct (parse_timestamp t) as [ts|] eqn:Hts.
    2: { right. right. exists t. split; [done|]. by rewrite Hts. }
    simpl in Hf.
    destruct (lookup_key "context_hash" data) as [h|] eqn:Hh.
    2: { left. exists "context_hash". split; [set_solver|done]. }
    destruct (lookup_key "pattern_features" data) as [pf|] eqn:Hpf.
    2: { left. exists "pattern_features". split; [set_solver|done]. }
    rewrite (proj2 (dict_getitem_Ok _ _ _) Hh), (proj2 (dict_getitem_Ok _ _ _) Hpf) in Hf.
    done.
Qed.

End spec.
End EntrySpec.

(** * History, business context and suggestions *)
Module DataProcessorSpec.
Import Py Learning DataProcessor Planning Copilot LearningSpec.

(** An element whose [response_summary] is present and is not a
    dictionary ends the loop with an exception. *)
Lemma visit_summary_not_dict dx v c :
  lookup_key "response_summary" dx = Some v → (∀ d, v ≠ VDict d) →
  is_ok (visit (VDict dx) c) = false.
Proof.
  intros Hl Hv. destruct (visit (VDict dx) c) as [c'|] eqn:Hvisit; [exfalso|done].
  unfold visit in Hvisit. inv_bind Hvisit.
  simpl in Hx7. unfold dict_get in Hx7. rewrite Hl in Hx7. simplify_eq.
  destruct x7 as [| | | | |dv]; try done. by destruct (Hv dv).
Qed.

Lemma visit_all_raises x l c :
  x ∈ l → (∀ c', is_ok (visit x c') = false) → is_ok (visit_all l c) = false.
Proof.
  intros Hin Hx. revert c. induction l as [|y l IH]; intros c.
  - by apply elem_of_nil in Hin.
  - simpl. destruct (visit y c) as [c1|] eqn:Hy; simpl; [|done].
    apply elem_of_cons in Hin as [->|Hin]; [|by apply IH].
    pose proof (Hx c) as Hc. by rewrite Hy in Hc.
Qed.

(** X19. [extract_business_context] raises when some element of
    [user_actions] holds a [response_summary] that is not a dictionary,
    [None] included: the default [{}] of [get] only stands in for a
    missing key. *)
Theorem extract_business_context_needs_summaries fa l dx v :
  dict_get fa "user_actions" (VList []) = VList l →
  VDict dx ∈ l → lookup_key "response_summary" dx = Some v → (∀ d, v ≠ VDict d) →
  is_ok (extract_business_context fa) = false.
Proof.
  intros Hfa Hin Hl Hv. unfold extract_business_context. rewrite Hfa. simpl.
  pose proof (visit_all_raises (VDict dx) l
    {| screens_accessed := []; entities_involved := []; recent_operations := [] |} Hin) as Hr.
  destruct (visit_all l _); simpl; [|done].
  apply Hr. intros c'. by eapply visit_summary_not_dict.
Qed.

Section history.
Context `{Runtime}.

Lemma py_eq_VStr v s : py_eq v (VStr s) = true → v = VStr s.
Proof.
  destruct v; simpl; try done. intros Heq. f_equal. by apply String.eqb_eq.
Qed.

(** When a rule applies, the action is a dictionary of type
    [open_screen] whose payload is a dictionary with a screen. *)
Lemma plan_historical_get_Some action p :
  plan_historical_get action = Ok (Some p) →
  ∃ a pl screen,
    action = VDict a ∧ dict_get a "type" VNone = VStr "open_screen"
    ∧ dict_get a "payload" (VDict []) = VDict pl
    ∧ lookup_key "screen" pl = Some screen
    ∧ (lower_string (str screen) = "purchaseorder" ∧ p = purchase_order_plan
       ∨ lower_string (str screen) = "salesorder" ∧ p = sales_order_plan).
Proof.
  unfold plan_historical_get, or_empty. intros Hp.
  destruct (truthy action) eqn:Ha.
  2: { by vm_compute in Hp. }
  destruct action as [| | | | |a]; try done. simpl in Hp.
  set (ty := dict_get a "type" VNone) in *.
  set (payload := dict_get a "payload" (VDict [])) in *.
  destruct (truthy payload) eqn:Hpl.
  2: { exfalso. simpl in Hp. change (str (VStr "")) with "" in Hp.
       simpl in Hp. rewrite !andb_false_r in Hp. done. }
  destruct payload as [| | | | |pl] eqn:Hpay; try done. simpl in Hp.
  unfold dict_get in Hp at 1 2.
  destruct (lookup_key "screen" pl) as [screen|] eqn:Hs.
  2: { exfalso. change (str (VStr "")) with "" in Hp.
       simpl in Hp. rewrite !andb_false_r in Hp. done. }
  exists a, pl, screen.
  destruct (py_eq ty (VStr "open_screen")) eqn:Hty; simpl in Hp; [|done].
  apply py_eq_VStr in Hty.
  split_and!; [done|done|done|done|].
  destruct (String.eqb_spec (lower_string (str screen)) "purchaseorder") as [Hpo|_].
  - left. by simplify_eq.
  - destruct (String.eqb_spec (lower_string (str screen)) "salesorder") as [Hso|_]; [|done].
    right. by simplify_eq.
Qed.

Lemma summarize_dict kv resp :
  ∃ s, _summarize_response (VDict (kv :: resp)) = Ok (VDict s)
    ∧ dict_get s "status" VNone = dict_get (kv :: resp) "status" VNone.
Proof.
  unfold _summarize_response. change (truthy (VDict (kv :: resp))) with true.
  cbn [negb get mbind]. simpl.
  destruct (truthy (dict_get (kv :: resp) "json" VNone)); [|by eexists].
  destruct (dict_get (kv :: resp) "json" VNone); by eexists.
Qed.

Lemma entity_of_stored r :
  stored_by_handle_action r →
  (plan r = VDict purchase_order_plan ∧ entity_of r = VStr "PurchaseOrder")
  ∨ (plan r = VDict sales_order_plan ∧ entity_of r = VStr "SalesOrder").
Proof.
  intros [(p & Hp & Hplan) _].
  apply plan_historical_get_Some in Hp as (_ & _ & _ & _ & _ & _ & _ & [[_ ->] | [_ ->]]);
    unfold entity_of; rewrite Hplan; [by left|by right].
Qed.

(** The loop body on the element built for a stored record *)
Lemma visit_stored r c :
  stored_by_handle_action r →
  ∃ x c', action_data r = Ok x ∧ visit x c = Ok c'
    ∧ recent_operations c' = recent_operations c ++ [operation_of r]
    ∧ entities_involved c'
      = (if member (entity_of r) (entities_involved c) then entities_involved c
         else entities_involved c ++ [entity_of r])
    ∧ (screens_accessed c' = screens_accessed c
       ∨ ∃ screen, truthy screen = true ∧ member screen (screens_accessed c) = false
           ∧ screens_accessed c' = screens_accessed c ++ [screen]).
Proof.
  intros Hr. pose proof (entity_of_stored r Hr) as Hent.
  destruct Hr as [(p & Hp & Hplan) (kv & resp & Hresp)].
  apply plan_historical_get_Some in Hp as (a & pl & screen & Ha & Hty & Hpl & Hs & Hrule).
  destruct (summarize_dict kv resp) as (s & Hsum & Hstatus).
  unfold action_data. rewrite Hresp, Hsum, Ha, Hplan. simpl.
  set (x := VDict [("timestamp", VInt (ts r)); ("action", VDict a); ("plan", VDict p);
                   ("response_summary", VDict s)]).
  assert (Hop : VDict [("type", VStr "open_screen"); ("timestamp", VInt (ts r));
                       ("success", VBool (py_eq (dict_get s "status" VNone) (VInt 200)))]
                = operation_of r).
  { unfold operation_of. by rewrite Hresp, Hstatus. }
  assert (Hpath : ∃ e, entity_of r = VStr e
            ∧ p = [("description", dict_get p "description" VNone);
                   ("path", VStr (String.append "/entity/Default/20.200.001/" e))]
                  ++ drop 2 p
            ∧ (e = "PurchaseOrder" ∨ e = "SalesOrder")).
  { destruct Hent as [[Hp1 He] | [Hp1 He]]; rewrite Hplan in Hp1; injection Hp1 as ->;
      eexists; (split; [exact He|]); split; try done; by auto. }
  destruct Hpath as (e & He & Hp & Hcases).
  assert (Hvisit : visit x c = Ok
    {| screens_accessed :=
         if truthy screen && negb (member screen (screens_accessed c))
         then screens_accessed c ++ [screen] else screens_accessed c;
       entities_involved :=
         if negb (member (VStr e) (entities_involved c))
         then entities_involved c ++ [VStr e] else entities_involved c;
       recent_operations := recent_operations c ++ [operation_of r] |}).
  { unfold visit.
    change (get x "action" (VDict [])) with (Ok (VDict a)).
    change (get x "plan" (VDict [])) with (Ok (VDict p)).
    change (get x "timestamp" VNone) with (Ok (VInt (ts r))).
    change (get x "response_summary" (VDict [])) with (Ok (VDict s)).
    cbn [mbind res_bind].
    change (get (VDict a) "type" VNone) with (Ok (dict_get a "type" VNone)). rewrite Hty.
    cbn [mbind res_bind].
    change (py_eq (VStr "open_screen") (VStr "open_screen")) with true. cbv iota.
    change (get (VDict a) "payload" (VDict [])) with (Ok (dict_get a "payload" (VDict []))).
    rewrite Hpl. cbn [mbind res_bind].
    change (get (VDict pl) "screen" VNone) with (Ok (dict_get pl "screen" VNone)).
    unfold dict_get at 1. rewrite Hs. cbn [mbind res_bind].
    change (get (VDict s) "status" VNone) with (Ok (dict_get s "status" VNone)).
    rewrite <- Hop. rewrite Hp. generalize (drop 2 p). intros rest.
    destruct Hcases as [-> | ->]; reflexivity. }
  exists x. eexists. split; [done|]. split; [exact Hvisit|].
  cbn [screens_accessed entities_involved recent_operations].
  split_and!; [done| |].
  { rewrite He. destruct (member (VStr e) (entities_involved c)); reflexivity. }
  destruct (truthy screen) eqn:Htr; simpl; [|by left].
  destruct (member screen (screens_accessed c)) eqn:Hm; simpl; [by left|].
  right. by exists screen.
Qed.

Lemma member_str e l :
  Forall (λ v, ∃ s, v = VStr s) l → member (VStr e) l = true ↔ VStr e ∈ l.
Proof.
  unfold member. intros Hl. induction Hl as [|v l [s ->] _ IH]; simpl.
  - split; [done|]. by intros ?%elem_of_nil.
  - rewrite orb_true_iff, IH, elem_of_cons. split.
    + intros [Heq%String.eqb_eq | Hin]; [left; by subst|by right].
    + intros [[= ->] | Hin]; [left; apply String.eqb_refl|by right].
Qed.

(** The loop on the elements built for stored records *)
Lemma visit_all_stored w c :
  Forall stored_by_handle_action w →
  Forall (λ v, ∃ s, v = VStr s) (entities_involved c) → NoDup (entities_involved c) →
  Forall (λ v, truthy v = true) (screens_accessed c) →
  ∃ l c', mapM action_data w = Ok l ∧ visit_all l c = Ok c'
    ∧ length l = length w
    ∧ recent_operations c' = recent_operations c ++ (operation_of <$> w)
    ∧ Forall (λ v, ∃ s, v = VStr s) (entities_involved c')
    ∧ NoDup (entities_involved c')
    ∧ (∀ e, e ∈ entities_involved c'
            ↔ e ∈ entities_involved c ∨ ∃ r, r ∈ w ∧ e = entity_of r)
    ∧ Forall (λ v, truthy v = true) (screens_accessed c').
Proof.
  intros Hw. revert c. induction Hw as [|r w Hr Hw IH]; intros c Hstr Hnd Htr.
  - exists [], c. split_and!; try done.
    + simpl. by rewrite app_nil_r.
    + intros e. split; [by left|]. intros [?|(r & Hin & _)]; [done|].
      by apply elem_of_nil in Hin.
  - destruct (visit_stored r c Hr) as (x & c1 & Hx & Hv & Hops & Hents & Hscr).
    assert (He : ∃ s, entity_of r = VStr s).
    { destruct (entity_of_stored r Hr) as [[_ ->] | [_ ->]]; by eexists. }
    destruct He as [s He].
    assert (Hstr1 : Forall (λ v, ∃ s, v = VStr s) (entities_involved c1)).
    { rewrite Hents. destruct (member _ _); [done|].
      apply Forall_app. split; [done|]. apply Forall_singleton. by exists s. }
    assert (Hnd1 : NoDup (entities_involved c1)).
    { rewrite Hents. destruct (member _ _) eqn:Hm; [done|].
      apply NoDup_app. split_and!; [done| |apply NoDup_singleton].
      intros v Hin Hin'. apply list_elem_of_singleton in Hin' as ->.
      rewrite He in Hin, Hm. apply (member_str s _ Hstr) in Hin. congruence. }
    assert (Htr1 : Forall (λ v, truthy v = true) (screens_accessed c1)).
    { destruct Hscr as [-> | (screen & Hts & _ & ->)]; [done|].
      apply Forall_app. split; [done|]. by apply Forall_singleton. }
    destruct (IH c1 Hstr1 Hnd1 Htr1) as (l & c' & Hl & Hvl & Hlen & Hops' & Hstr' & Hnd' & Hin' & Htr').
    exists (x :: l), c'. split_and!; try done.
    + simpl. rewrite Hx. simpl. rewrite Hl. done.
    + simpl. rewrite Hv. done.
    + simpl. by rewrite Hlen.
    + rewrite Hops', Hops. simpl. by rewrite <- app_assoc.
    + intros e. rewrite Hin', Hents. split.
      * intros [Hin | (r' & Hr' & ->)].
        -- destruct (member _ _); [by left|].
           apply elem_of_app in Hin as [Hin | ->%list_elem_of_singleton]; [by left|].
           right. exists r. split; [by left|done].
        -- right. exists r'. split; [by right|done].
      * intros [Hin | (r' & Hr' & ->)].
        -- left. destruct (member _ _); [done|]. apply elem_of_app. by left.
        -- apply elem_of_cons in Hr' as [-> | Hr']; [|right; by exists r'].
           left. destruct (member _ _) eqn:Hm.
           ++ rewrite He in Hm |- *. by apply (member_str s _ Hstr).
           ++ apply elem_of_app. right. by apply list_elem_of_singleton.
Qed.

Lemma slice_upto_sublist {A} limit (l : list A) : slice_upto limit l `sublist_of` l.
Proof. unfold slice_upto. case_bool_decide; apply sublist_take. Qed.

Lemma recent_records_elem store session limit r :
  r ∈ recent_records store session limit → r ∈ store ∧ of_session session r.
Proof.
  unfold recent_records. intros Hin.
  eapply elem_of_sublist in Hin; [|apply slice_upto_sublist].
  rewrite sorted_desc_perm in Hin. by apply list_elem_of_filter in Hin as [? ?].
Qed.

Lemma recent_records_stored store session limit :
  Forall stored_by_handle_action store →
  Forall stored_by_handle_action (recent_records store session limit).
Proof.
  rewrite !Forall_forall. intros Hs r Hin.
  apply recent_records_elem in Hin as [Hin _]. by apply Hs.
Qed.

(** X22. On a store written by [handle_action], [format_user_actions]
    followed by [extract_business_context] returns: the four keys of the
    context; one operation for each record of the window, in the order
    of the window, with the type [open_screen], the time stamp of the
    record and [success] true exactly for a response status of 200; as
    entities, without repetition, the last path components of the plans
    of the window, each [PurchaseOrder] or [SalesOrder]; screens that
    are not empty; and no data pattern. *)
Theorem business_context_of_history store session limit :
  Forall stored_by_handle_action store →
  let w := recent_records store session limit in
  ∃ fa screens entities,
    format_user_actions store session limit = Ok fa
    ∧ extract_business_context fa
      = Ok [("screens_accessed", VList screens);
            ("entities_involved", VList entities);
            ("recent_operations", VList (operation_of <$> w));
            ("data_patterns", VList [])]
    ∧ NoDup entities
    ∧ (∀ e, e ∈ entities ↔ ∃ r, r ∈ w ∧ e = entity_of r)
    ∧ Forall (λ e, e = VStr "PurchaseOrder" ∨ e = VStr "SalesOrder") entities
    ∧ Forall (λ v, truthy v = true) screens.
Proof.
  intros Hstore w.
  pose proof (recent_records_stored store session limit Hstore) as Hw. fold w in Hw.
  destruct (visit_all_stored w
    {| screens_accessed := []; entities_involved := []; recent_operations := [] |} Hw)
    as (l & c' & Hl & Hv & _ & Hops & _ & Hnd & Hin & Htr); [done|apply NoDup_nil_2|done|].
  simpl in Hops, Hin.
  eexists _, (screens_accessed c'), (entities_involved c').
  unfold format_user_actions. fold w. rewrite Hl. simpl. split; [done|].
  unfold extract_business_context. simpl. rewrite Hv. simpl. rewrite Hops.
  split_and!; [done|done| |  |done].
  - intros e. rewrite Hin. split; [intros [?%elem_of_nil|?]; done|by right].
  - apply Forall_forall. intros e He. apply Hin in He as [?%elem_of_nil|(r & Hr & ->)]; [done|].
    rewrite Forall_forall in Hw.
    destruct (entity_of_stored r (Hw r Hr)) as [[_ ->] | [_ ->]]; by auto.
Qed.







Lemma insert_desc_by_ts x l :
  StronglySorted by_ts l → StronglySorted by_ts (insert_desc ts Z.lt x l).
Proof.
  induction 1 as [|y l Hs IH Hall]; simpl.
  - repeat constructor.
  - case_bool_decide as Hlt.
    + constructor; [done|].
      rewrite insert_desc_perm. constructor; [|done]. unfold by_ts. lia.
    + constructor; [by constructor|].
      constructor; [unfold by_ts; lia|].
      eapply Forall_impl; [exact Hall|]. intros z Hz. unfold by_ts in *. lia.
Qed.

Lemma sorted_desc_by_ts l : StronglySorted by_ts (sorted_desc ts Z.lt l).
Proof.
  induction l as [|x l IH]; simpl; [constructor|]. by apply insert_desc_by_ts.
Qed.

(** X25. For a limit that is not negative, the records [format_user_actions]
    formats are the [limit] most recent ones of the session (all of
    them when there are fewer), most recent first: together with the
    records left out they are the records of the session, in descending
    order of time stamp. *)
Theorem recent_records_window store session limit :
  0 ≤ limit →
  let w := recent_records store session limit in
  ∃ older,
    w ++ older ≡ₚ filter (of_session session) store
    ∧ StronglySorted by_ts (w ++ older)
    ∧ length w = (Z.to_nat limit `min` length (filter (of_session session) store))%nat
    ∧ (∀ r r', r ∈ w → r' ∈ older → ts r' ≤ ts r).
Proof.
  intros Hlimit w. unfold w, recent_records, slice_upto.
  rewrite bool_decide_eq_true_2 by done.
  set (sorted := sorted_desc ts Z.lt (filter (of_session session) store)).
  assert (Hperm : sorted ≡ₚ filter (of_session session) store) by apply sorted_desc_perm.
  assert (Hsorted : StronglySorted by_ts sorted) by apply sorted_desc_by_ts.
  exists (drop (Z.to_nat limit) sorted). rewrite take_drop. split_and!; [done|done| |].
  - rewrite length_take, <- Hperm. done.
  - intros r r' Hr Hr'. rewrite <- (take_drop (Z.to_nat limit) sorted) in Hsorted.
    apply (StronglySorted_app_1_elem_of by_ts _ _ _ _ Hsorted Hr Hr').
Qed.

(** X24. [plan_historical_get] returns a plan exactly for a dictionary of
    type [open_screen] whose payload is a dictionary with a screen that
    reads [purchaseorder] or [salesorder] in lower case, and then the
    plan of that entity; it raises exactly when the action, or the
    payload of a dictionary, is a true value that is not a dictionary. *)
Theorem plan_historical_get_rules action :
  (∀ p, plan_historical_get action = Ok (Some p) ↔
     ∃ a pl screen,
       action = VDict a ∧ dict_get a "type" VNone = VStr "open_screen"
       ∧ dict_get a "payload" (VDict []) = VDict pl
       ∧ lookup_key "screen" pl = Some screen
       ∧ (lower_string (str screen) = "purchaseorder" ∧ p = purchase_order_plan
          ∨ lower_string (str screen) = "salesorder" ∧ p = sales_order_plan))
  ∧ (is_ok (plan_historical_get action) = false ↔
       truthy action = true
       ∧ match action with
         | VDict a =>
             truthy (dict_get a "payload" (VDict [])) = true
             ∧ ∀ pl, dict_get a "payload" (VDict []) ≠ VDict pl
         | _ => True
         end).
Proof.
  split.
  - intros p. split; [apply plan_historical_get_Some|].
    intros (a & pl & screen & -> & Hty & Hpl & Hs & Hrule).
    unfold plan_historical_get, or_empty.
    assert (Ha : truthy (VDict a) = true).
    { destruct a; [|done]. by vm_compute in Hty. }
    rewrite Ha. cbn [get mbind res_bind]. rewrite Hty, Hpl.
    assert (Hp : truthy (VDict pl) = true) by (by destruct pl).
    assert (Hsc : dict_get pl "screen" (VStr "") = screen)
      by (unfold dict_get; by rewrite Hs).
    rewrite Hp. cbn [get mbind res_bind]. rewrite Hsc.
    change (py_eq (VStr "open_screen") (VStr "open_screen")) with true. cbn [andb].
    destruct Hrule as [[-> ->] | [-> ->]]; reflexivity.
  - unfold plan_historical_get, or_empty.
    destruct (truthy action) eqn:Ha.
    2: { split; [by vm_compute|]. by intros [? _]. }
    destruct action as [| | | | |a]; try done; try (split; [done|by vm_compute]).
    cbn [get mbind res_bind].
    destruct (truthy (dict_get a "payload" (VDict []))) eqn:Hp.
    + destruct (dict_get a "payload" (VDict [])) as [| | | | |pl] eqn:Hpl;
        try (split; [intros _; split; [done|split; [done|congruence]]|done]).
      cbn [get mbind res_bind]. split.
      * intros Hno. exfalso. repeat case_match; done.
      * intros (_ & _ & Hno). by destruct (Hno pl).
    + cbn [get mbind res_bind]. split.
      * intros Hno. exfalso. repeat case_match; done.
      * by intros (_ & ? & _).
Qed.

End history.

Section service.
Context `{Runtime} (llm : dict → option guidance_result → res (option parsed)).

Lemma format_user_actions_Ok store session limit fa :
  format_user_actions store session limit = Ok fa →
  ∃ l, mapM action_data (recent_records store session limit) = Ok l
    ∧ fa = [("session_info",
             VDict [("session_id", session);
                    ("record_count",
                     VInt (Z.of_nat (length (recent_records store session limit))));
                    ("time_range", _get_time_range (recent_records store session limit))]);
            ("user_actions", VList l)].
Proof.
  unfold format_user_actions. intros Hf. inv_bind Hf. simplify_eq. by eexists.
Qed.

(** X20. [get_suggestion] of an initialised service returns its service
    error whenever a current action is given (any true value): the
    element inserted for it has [response_summary = None], on which
    [extract_business_context] raises, so neither the learning guidance
    nor the model is reached, whatever the store and the model. *)
Theorem get_suggestion_with_current_action_fails d store now session ca limit :
  truthy ca = true →
  get_suggestion llm true d store now session ca limit = ServiceError.
Proof.
  intros Hca. unfold get_suggestion, get_suggestion_body. simpl.
  destruct (format_user_actions store session limit) as [fa|] eqn:Hf; simpl; [|done].
  apply format_user_actions_Ok in Hf as (l & _ & ->).
  rewrite Hca. simpl.
  set (current := [("timestamp", VInt now); ("action", ca); ("plan", VNone);
                   ("response_summary", VNone); ("is_current", VBool true)]).
  set (fa := [("session_info", _); ("user_actions", VList (VDict current :: l))]).
  assert (Hbad : is_ok (extract_business_context fa) = false).
  { apply (extract_business_context_needs_summaries fa (VDict current :: l) current VNone);
      [done|by left|done|done]. }
  by destruct (extract_business_context fa).
Qed.

Lemma mapM_res_length {A B} (f : A → res B) l k :
  mapM f l = Ok k → length k = length l.
Proof.
  revert k. induction l as [|x l IH]; intros k Hk; simpl in Hk.
  - by injection Hk as <-.
  - inv_bind Hk. injection Hk as <-. simpl. f_equal. by apply IH.
Qed.

(** X21. Without a current action, on a store written by
    [handle_action], [get_suggestion] reaches the model: formatting and
    context extraction succeed, the model gets the formatted actions
    with the business context and no learning guidance, and the result
    is the success built from its answer, with the size and the time
    range of the window, or the LLM error, or the service error when
    the model call raises. *)
Theorem history_only_suggestion d store now session ca limit :
  Forall stored_by_handle_action store → truthy ca = false →
  let w := recent_records store session limit in
  ∃ fa bc,
    format_user_actions store session limit = Ok fa
    ∧ extract_business_context fa = Ok bc
    ∧ get_suggestion llm true d store now session ca limit
      = match llm (dict_set "business_context" (VDict bc) fa) None with
        | Ok (Some answer) => Suggested answer bc None (length w) (_get_time_range w)
        | Ok None => LLMError
        | Raise _ => ServiceError
        end.
Proof.
  intros Hstore Hca w.
  pose proof (recent_records_stored store session limit Hstore) as Hw. fold w in Hw.
  destruct (visit_all_stored w
    {| screens_accessed := []; entities_involved := []; recent_operations := [] |} Hw)
    as (l & c' & Hl & Hv & Hlen & _); [done|apply NoDup_nil_2|done|].
  assert (Hfa : ∃ fa, format_user_actions store session limit = Ok fa
                      ∧ dict_get fa "user_actions" (VList []) = VList l).
  { unfold format_user_actions. fold w. rewrite Hl. by eexists. }
  destruct Hfa as (fa & Hfa & Hua).
  assert (Hbc : ∃ bc, extract_business_context fa = Ok bc).
  { unfold extract_business_context. rewrite Hua. simpl. rewrite Hv. by eexists. }
  destruct Hbc as [bc Hbc].
  exists fa, bc. split; [done|]. split; [exact Hbc|].
  unfold get_suggestion, get_suggestion_body. cbn [negb].
  rewrite Hfa, Hca. cbn [mbind res_bind]. rewrite Hbc. cbn [mbind res_bind].
  destruct (llm _ None) as [[answer|]|]; cbn [mbind res_bind]; [|done..].
  apply format_user_actions_Ok in Hfa as (l' & Hl' & ->).
  apply mapM_res_length in Hl'. simpl. fold w. by rewrite Hl'.
Qed.

End service.

Import Samples HistorySamples.

Lemma extract_business_context_needs_summaries_witness :
  is_ok (extract_business_context [("user_actions", VList [VDict current_action_data])])
  = false.
Proof.
  apply (extract_business_context_needs_summaries
           [("user_actions", VList [VDict current_action_data])]
           [VDict current_action_data] current_action_data VNone).
  - reflexivity.
  - apply list_elem_of_here.
  - reflexivity.
  - intros d Hd. discriminate Hd.
Defined.

Lemma get_suggestion_with_current_action_fails_witness :
  get_suggestion silent_llm true empty_db sample_store 300 (VStr "s1")
    (VDict open_sales_order) 5
  = ServiceError.
Proof.
  apply (get_suggestion_with_current_action_fails silent_llm empty_db sample_store 300
           (VStr "s1") (VDict open_sales_order) 5).
  reflexivity.
Defined.

(** Each sample record is one [handle_action] stores. *)
Ltac sample_records_stored :=
  repeat apply Forall_cons_2; [..|apply Forall_nil_2];
  (split; [eexists; split; [vm_compute; reflexivity|reflexivity] | by eexists _, _]).

Lemma history_only_suggestion_witness :
  get_suggestion silent_llm true empty_db sample_store 300 (VStr "s1") VNone 5 = LLMError.
Proof.
  assert (Hstore : Forall stored_by_handle_action sample_store)
    by sample_records_stored.
  destruct (history_only_suggestion silent_llm empty_db sample_store 300 (VStr "s1") VNone 5
              Hstore eq_refl) as (fa & bc & _ & _ & Hg).
  exact Hg.
Defined.

Lemma business_context_of_history_witness :
  ∃ fa screens,
    format_user_actions sample_store (VStr "s1") 5 = Ok fa
    ∧ extract_business_context fa
      = Ok [("screens_accessed", VList screens);
            ("entities_involved", VList [VStr "PurchaseOrder"; VStr "SalesOrder"]);
            ("recent_operations",
             VList [operation_of purchase_order_record; operation_of sales_order_record]);
            ("data_patterns", VList [])].
Proof.
  assert (Hstore : Forall stored_by_handle_action sample_store)
    by sample_records_stored.
  destruct (business_context_of_history sample_store (VStr "s1") 5 Hstore)
    as (fa & screens & entities & Hfa & Hbc & _).
  exists fa, screens. split; [exact Hfa|].
  assert (Hfa' : ∃ fa', format_user_actions sample_store (VStr "s1") 5 = Ok fa'
                        ∧ ∃ s, extract_business_context fa'
                               = Ok [("screens_accessed", VList s);
                                     ("entities_involved",
                                      VList [VStr "PurchaseOrder"; VStr "SalesOrder"]);
                                     ("recent_operations",
                                      VList [operation_of purchase_order_record;
                                             operation_of sales_order_record]);
                                     ("data_patterns", VList [])]).
  { clear. eexists. split; [vm_compute; reflexivity|]. eexists. vm_compute. reflexivity. }
  destruct Hfa' as (fa' & Hfa' & s & Hs).
  rewrite Hfa in Hfa'. injection Hfa' as <-.
  rewrite Hbc in Hs. injection Hs as -> ->. exact Hbc.
Defined.


Lemma recent_records_window_witness :
  ∃ older,
    recent_records sample_store (VStr "s1") 1 ++ older
      ≡ₚ filter (of_session (VStr "s1")) sample_store
    ∧ length (recent_records sample_store (VStr "s1") 1) = 1%nat.
Proof.
  destruct (recent_records_window sample_store (VStr "s1") 1) as (older & Hp & _ & Hl & _).
  - lia.
  - exists older. split; [exact Hp|]. rewrite Hl. reflexivity.
Defined.

End DataProcessorSpec.
